(** * bluez_inc: the GATT characteristic client ([characteristic.c])

    A shallow embedding of [characteristic.c].  The C functions mutate one
    [struct binc_characteristic] through a pointer and talk to a GDBus
    connection; here every function takes the record and returns the updated
    record inside a small state-and-abort monad whose state is the connection
    together with the chronological list of observable effects (remote calls,
    signal (un)subscriptions, user callbacks, log lines).  A failed
    [g_assert] aborts the process: the computation yields [None].

    Conventions of the embedding:
    - the [Characteristic *] argument is the record itself, so it is never
      NULL; other pointers that the code tests against NULL are options;
    - a function that assigns no field of the struct returns [M unit];
    - a user callback is a function pointer, identified by a number; calling
      it is recorded as an effect, and it is taken not to call back into the
      characteristic while it runs;
    - reference counts and the release of temporaries ([g_variant_unref],
      [g_byte_array_free], [g_free] of the strings) are not modelled; the
      release of the flag list is, as an effect. *)

From Stdlib Require Import ZArith List String Bool Lia Permutation.
From Stdlib Require Import Strings.Byte.
From Stdlib Require DecimalString.
Import ListNotations.

Local Open Scope string_scope.
Local Open Scope Z_scope.
Local Open Scope list_scope.

(** ** GLib values *)

(** [guint] is an unsigned 32-bit integer; [+=] wraps around. *)
Definition guint_modulus : Z := 2 ^ 32.

Definition guint_add (a b : Z) : Z := (a + b) mod guint_modulus.

(** [g_str_equal] on two non-NULL C strings. *)
Definition g_str_equal (a b : string) : bool := String.eqb a b.

(** The fragment of [GVariant] that travels on the [org.bluez] interfaces
    used by this file. *)
#[warnings="-register-all"]
Inductive GVariant : Type :=
| GVBoolean (b : bool)
| GVUint16 (q : Z)
| GVString (s : string)
| GVByteArray (data : list byte)
| GVStringArray (strv : list string)
| GVDict (entries : list (string * GVariant))
| GVTuple (children : list GVariant).

Fixpoint g_variant_get_type_string (v : GVariant) : string :=
  match v with
  | GVBoolean _ => "b"
  | GVUint16 _ => "q"
  | GVString _ => "s"
  | GVByteArray _ => "ay"
  | GVStringArray _ => "as"
  | GVDict _ => "a{sv}"
  | GVTuple children =>
      ("(" ++ (fix items (l : list GVariant) : string :=
                 match l with
                 | [] => ""
                 | x :: r => g_variant_get_type_string x ++ items r
                 end) children ++ ")")%string
  end.

(** [g_variant_get_boolean] guards with [g_return_val_if_fail]: a value of
    another type yields [FALSE] (and a warning), not an abort. *)
Definition g_variant_get_boolean (v : GVariant) : bool :=
  match v with
  | GVBoolean b => b
  | _ => false
  end.

(** [g_variant_get_child_value (value, index)]. *)
Definition g_variant_get_child_value (v : GVariant) (index : nat) : option GVariant :=
  match v with
  | GVTuple children => nth_error children index
  | _ => None
  end.

Record GError : Type := mkGError {
  error_code : Z;
  error_message : string
}.

(** ** Declarations of [characteristic.h] and its collaborators *)

(** Modelled from the spec: the [GATT_CHR_PROP_*] macros of
    [characteristic.h], which is not among the sources.  The spec only says
    that the token-to-bit mapping is fixed, so the seven values are taken as
    parameters of the development. *)
Class GattChrProp : Type := {
  GATT_CHR_PROP_BROADCAST : Z;
  GATT_CHR_PROP_READ : Z;
  GATT_CHR_PROP_WRITE_WITHOUT_RESP : Z;
  GATT_CHR_PROP_WRITE : Z;
  GATT_CHR_PROP_NOTIFY : Z;
  GATT_CHR_PROP_INDICATE : Z;
  GATT_CHR_PROP_AUTH : Z
}.

(** Modelled from the spec: [WriteType] of [characteristic.h]; "with response"
    against "without response". *)
Inductive WriteType : Type := WITH_RESPONSE | WITHOUT_RESPONSE.

Definition WriteType_eqb (a b : WriteType) : bool :=
  match a, b with
  | WITH_RESPONSE, WITH_RESPONSE => true
  | WITHOUT_RESPONSE, WITHOUT_RESPONSE => true
  | _, _ => false
  end.

(** The four callback typedefs are C function pointers; a pointer is
    identified by a number, the NULL pointer is [None]. *)
Definition OnNotifyingStateChangedCallback : Type := nat.
Definition OnReadCallback : Type := nat.
Definition OnWriteCallback : Type := nat.
Definition OnNotifyCallback : Type := nat.

(** A [GDBusConnection *] as stored in the struct. *)
Definition GDBusConnectionPtr : Type := Z.

(** Modelled from the spec: [Device] and [binc_device_get_dbus_connection]
    of [device.c], which is not among the sources; the characteristic only
    needs the connection of its owning device. *)
Record Device : Type := mkDevice {
  device_path : string;
  device_connection : GDBusConnectionPtr
}.

Definition binc_device_get_dbus_connection (device : Device) : GDBusConnectionPtr :=
  device_connection device.

(** ** The struct *)

Record Characteristic : Type := mkCharacteristic {
  device : option Device;
  connection : GDBusConnectionPtr;
  path : option string;
  uuid : option string;
  service_path : option string;
  service_uuid : option string;
  notifying : bool;
  flags : list string;                  (* GList *, NULL is the empty list *)
  properties : Z;                       (* guint *)
  characteristic_prop_changed : Z;      (* guint, 0 when not subscribed *)
  notify_state_callback : option OnNotifyingStateChangedCallback;
  on_read_callback : option OnReadCallback;
  on_write_callback : option OnWriteCallback;
  on_notify_callback : option OnNotifyCallback
}.

(** Field assignments [characteristic->f = v]. *)
Definition with_uuid (c : Characteristic) (v : option string) : Characteristic :=
  mkCharacteristic (device c) (connection c) (path c) v (service_path c)
    (service_uuid c) (notifying c) (flags c) (properties c)
    (characteristic_prop_changed c) (notify_state_callback c)
    (on_read_callback c) (on_write_callback c) (on_notify_callback c).

Definition with_service_path (c : Characteristic) (v : option string) : Characteristic :=
  mkCharacteristic (device c) (connection c) (path c) (uuid c) v
    (service_uuid c) (notifying c) (flags c) (properties c)
    (characteristic_prop_changed c) (notify_state_callback c)
    (on_read_callback c) (on_write_callback c) (on_notify_callback c).

Definition with_service_uuid (c : Characteristic) (v : option string) : Characteristic :=
  mkCharacteristic (device c) (connection c) (path c) (uuid c) (service_path c)
    v (notifying c) (flags c) (properties c)
    (characteristic_prop_changed c) (notify_state_callback c)
    (on_read_callback c) (on_write_callback c) (on_notify_callback c).

Definition with_notifying (c : Characteristic) (v : bool) : Characteristic :=
  mkCharacteristic (device c) (connection c) (path c) (uuid c) (service_path c)
    (service_uuid c) v (flags c) (properties c)
    (characteristic_prop_changed c) (notify_state_callback c)
    (on_read_callback c) (on_write_callback c) (on_notify_callback c).

Definition with_flags (c : Characteristic) (v : list string) : Characteristic :=
  mkCharacteristic (device c) (connection c) (path c) (uuid c) (service_path c)
    (service_uuid c) (notifying c) v (properties c)
    (characteristic_prop_changed c) (notify_state_callback c)
    (on_read_callback c) (on_write_callback c) (on_notify_callback c).

Definition with_properties (c : Characteristic) (v : Z) : Characteristic :=
  mkCharacteristic (device c) (connection c) (path c) (uuid c) (service_path c)
    (service_uuid c) (notifying c) (flags c) v
    (characteristic_prop_changed c) (notify_state_callback c)
    (on_read_callback c) (on_write_callback c) (on_notify_callback c).

Definition with_characteristic_prop_changed (c : Characteristic) (v : Z) : Characteristic :=
  mkCharacteristic (device c) (connection c) (path c) (uuid c) (service_path c)
    (service_uuid c) (notifying c) (flags c) (properties c)
    v (notify_state_callback c)
    (on_read_callback c) (on_write_callback c) (on_notify_callback c).

Definition with_notify_state_callback (c : Characteristic)
    (v : option OnNotifyingStateChangedCallback) : Characteristic :=
  mkCharacteristic (device c) (connection c) (path c) (uuid c) (service_path c)
    (service_uuid c) (notifying c) (flags c) (properties c)
    (characteristic_prop_changed c) v
    (on_read_callback c) (on_write_callback c) (on_notify_callback c).

Definition with_on_read_callback (c : Characteristic) (v : option OnReadCallback) : Characteristic :=
  mkCharacteristic (device c) (connection c) (path c) (uuid c) (service_path c)
    (service_uuid c) (notifying c) (flags c) (properties c)
    (characteristic_prop_changed c) (notify_state_callback c)
    v (on_write_callback c) (on_notify_callback c).

Definition with_on_write_callback (c : Characteristic) (v : option OnWriteCallback) : Characteristic :=
  mkCharacteristic (device c) (connection c) (path c) (uuid c) (service_path c)
    (service_uuid c) (notifying c) (flags c) (properties c)
    (characteristic_prop_changed c) (notify_state_callback c)
    (on_read_callback c) v (on_notify_callback c).

Definition with_on_notify_callback (c : Characteristic) (v : option OnNotifyCallback) : Characteristic :=
  mkCharacteristic (device c) (connection c) (path c) (uuid c) (service_path c)
    (service_uuid c) (notifying c) (flags c) (properties c)
    (characteristic_prop_changed c) (notify_state_callback c)
    (on_read_callback c) (on_write_callback c) v.

(** ** The world outside the struct *)

(** The completion handlers this file hands to [g_dbus_connection_call]. *)
Inductive ReadyCallback : Type :=
| char_read_cb
| char_write_cb
| char_start_notify_cb
| char_stop_notify_cb.

Record PendingCall : Type := mkPendingCall {
  call_method : string;
  call_reply_type : option string;
  call_callback : ReadyCallback
}.

(** What the completion handler finds in its [GAsyncResult]. *)
Inductive GAsyncResult : Type :=
| AsyncValue (value : GVariant)
| AsyncError (error : GError).

(** What the remote end answers to a method call. *)
Inductive Reply : Type :=
| ReplyValue (value : GVariant)
| ReplyError (error : GError).

(** The state of the GDBus connection as far as this characteristic is
    concerned: the signal subscriptions whose handler is
    [binc_internal_signal_characteristic_changed] on this characteristic, the
    method calls awaiting their reply, and the next subscription identifier
    (GDBus hands out fresh, non-zero identifiers). *)
Record GDBusConnection : Type := mkGDBusConnection {
  next_subscription_id : Z;
  subscriptions : list Z;
  pending_calls : list PendingCall
}.

Inductive LogArg : Type :=
| LogStr (s : option string)
| LogInt (n : Z)
| LogHex (data : list byte).

(** Observable effects, in the order they happen. *)
Inductive Effect : Type :=
| ELogDebug (tag : string) (format : string) (args : list LogArg)
| ESignalSubscribe (id : Z) (sender : string) (interface_name : string)
    (member : string) (object_path : option string) (arg0 : string)
| ESignalUnsubscribe (id : Z)
| EDBusCall (bus_name : string) (object_path : option string)
    (interface_name : string) (method_name : string)
    (parameters : option GVariant) (reply_type : option string)
| EOnRead (callback : OnReadCallback) (byteArray : option (list byte))
    (error : option GError)
| EOnWrite (callback : OnWriteCallback) (error : option GError)
| EOnNotifyingStateChanged (callback : OnNotifyingStateChangedCallback)
    (is_notifying : bool) (error : option GError)
| EOnNotify (callback : OnNotifyCallback) (byteArray : list byte)
| EListFreeFull (items : list string).

Record World : Type := mkWorld {
  bus : GDBusConnection;
  trace : list Effect
}.

(** ** The monad: state over [World], [None] is an abort *)

Definition M (A : Type) : Type := World -> option (A * World).

Definition ret {A : Type} (a : A) : M A := fun w => Some (a, w).

Definition bind {A B : Type} (m : M A) (k : A -> M B) : M B :=
  fun w => match m w with
           | Some (a, w') => k a w'
           | None => None
           end.

Declare Scope m_scope.
Delimit Scope m_scope with m.
Notation "x <- m ;; k" := (bind m (fun x => k))
  (at level 61, m at next level, right associativity) : m_scope.
Notation "m ;; k" := (bind m (fun _ => k))
  (at level 61, right associativity) : m_scope.
Local Open Scope m_scope.

(** [g_assert (cond)]. *)
Definition g_assert (cond : bool) : M unit :=
  fun w => if cond then Some (tt, w) else None.

Definition emit (e : Effect) : M unit :=
  fun w => Some (tt, mkWorld (bus w) (trace w ++ [e])).


(** ** GDBus primitives *)

(** [g_dbus_connection_signal_subscribe]: registers the handler and returns
    the fresh identifier of the subscription. *)
Definition g_dbus_connection_signal_subscribe (sender interface_name member : string)
    (object_path : option string) (arg0 : string) : M Z :=
  fun w =>
    let id := next_subscription_id (bus w) in
    Some (id,
          mkWorld
            (mkGDBusConnection (id + 1) (subscriptions (bus w) ++ [id])
               (pending_calls (bus w)))
            (trace w ++ [ESignalSubscribe id sender interface_name member object_path arg0])).

(** [g_dbus_connection_signal_unsubscribe]: the subscription stops receiving
    signals; an identifier that is not registered only produces a warning. *)
Definition g_dbus_connection_signal_unsubscribe (id : Z) : M unit :=
  fun w =>
    Some (tt,
          mkWorld
            (mkGDBusConnection (next_subscription_id (bus w))
               (remove Z.eq_dec id (subscriptions (bus w)))
               (pending_calls (bus w)))
            (trace w ++ [ESignalUnsubscribe id])).

(** [g_dbus_connection_call]: sends the method call and returns at once; the
    completion handler runs later, when the reply arrives. *)
Definition g_dbus_connection_call (bus_name : string) (object_path : option string)
    (interface_name method_name : string) (parameters : option GVariant)
    (reply_type : option string) (callback : ReadyCallback) : M unit :=
  fun w =>
    Some (tt,
          mkWorld
            (mkGDBusConnection (next_subscription_id (bus w))
               (subscriptions (bus w))
               (pending_calls (bus w) ++ [mkPendingCall method_name reply_type callback]))
            (trace w ++ [EDBusCall bus_name object_path interface_name method_name
                           parameters reply_type])).

(** [g_dbus_connection_call_finish (connection, res, &error)]: the returned
    value and the error left in [error]. *)
Definition g_dbus_connection_call_finish (res : GAsyncResult) : option GVariant * option GError :=
  match res with
  | AsyncValue value => (Some value, None)
  | AsyncError error => (None, Some error)
  end.

Definition G_IO_ERROR_INVALID_ARGUMENT : Z := 13.

(** What GDBus stores in the [GAsyncResult] of a call: the remote error, or
    the reply, which is checked against the reply type given at the call and
    turned into an error when it has another type. *)
Definition g_dbus_async_result (reply_type : option string) (reply : Reply) : GAsyncResult :=
  match reply with
  | ReplyError error => AsyncError error
  | ReplyValue value =>
      match reply_type with
      | None => AsyncValue value
      | Some ty =>
          if g_str_equal (g_variant_get_type_string value) ty
          then AsyncValue value
          else AsyncError (mkGError G_IO_ERROR_INVALID_ARGUMENT "Method returned unexpected type")
      end
  end.

(** Modelled from the spec: [log_debug] of [logger.c], which is not among the
    sources; a log line is an observable effect and nothing else. *)
Definition log_debug (tag format : string) (args : list LogArg) : M unit :=
  emit (ELogDebug tag format args).

(** ** [characteristic.c] *)

Definition TAG : string := "Characteristic".
Definition INTERFACE_CHARACTERISTIC : string := "org.bluez.GattCharacteristic1".
Definition BLUEZ_DBUS : string := "org.bluez".

Definition CHARACTERISTIC_METHOD_READ_VALUE : string := "ReadValue".
Definition CHARACTERISTIC_METHOD_WRITE_VALUE : string := "WriteValue".
Definition CHARACTERISTIC_METHOD_STOP_NOTIFY : string := "StopNotify".
Definition CHARACTERISTIC_METHOD_START_NOTIFY : string := "StartNotify".
Definition CHARACTERISTIC_PROPERTY_NOTIFYING : string := "Notifying".
Definition CHARACTERISTIC_PROPERTY_VALUE : string := "Value".

(** [g_new0 (Characteristic, 1)]: every field is zero. *)
Definition g_new0_Characteristic : Characteristic :=
  mkCharacteristic None 0 None None None None false [] 0 0 None None None None.

Definition binc_characteristic_create (dev : Device) (object_path : option string) : Characteristic :=
  let characteristic := g_new0_Characteristic in
  mkCharacteristic (Some dev) (binc_device_get_dbus_connection dev) object_path
    (uuid characteristic) (service_path characteristic) (service_uuid characteristic)
    (notifying characteristic) (flags characteristic) (properties characteristic)
    (characteristic_prop_changed characteristic) (notify_state_callback characteristic)
    (on_read_callback characteristic) (on_write_callback characteristic)
    (on_notify_callback characteristic).

(** The struct itself is released at the end, so nothing is returned. *)
Definition binc_characteristic_free (characteristic : Characteristic) : M unit :=
  characteristic <-
    (if negb (characteristic_prop_changed characteristic =? 0) then
       g_dbus_connection_signal_unsubscribe (characteristic_prop_changed characteristic) ;;
       ret (with_characteristic_prop_changed characteristic 0)
     else ret characteristic) ;;
  characteristic <-
    (match flags characteristic with
     | [] => ret characteristic
     | _ :: _ =>
         emit (EListFreeFull (flags characteristic)) ;;
         ret (with_flags characteristic [])
     end) ;;
  ret tt.

(** [g_variant_get_byte_array]: both assertions, then the bytes. *)
Definition g_variant_get_byte_array (variant : option GVariant) : M (list byte) :=
  match variant with
  | None => fun _ => None
  | Some v =>
      g_assert (g_str_equal (g_variant_get_type_string v) "ay") ;;
      match v with
      | GVByteArray data => ret data
      | _ => fun _ => None
      end
  end.

Definition binc_internal_char_read_cb (res : GAsyncResult)
    (characteristic : Characteristic) : M unit :=
  let '(value, error) := g_dbus_connection_call_finish res in
  byteArray <-
    (match value with
     | Some v =>
         g_assert (g_str_equal (g_variant_get_type_string v) "(ay)") ;;
         let innerArray := g_variant_get_child_value v 0 in
         byteArray <- g_variant_get_byte_array innerArray ;;
         ret (Some byteArray)
     | None => ret None
     end) ;;
  match on_read_callback characteristic with
  | Some callback => emit (EOnRead callback byteArray error)
  | None => ret tt
  end ;;
  match error with
  | Some e =>
      log_debug TAG "failed to call '%s' (error %d: %s)"
        [LogStr (Some CHARACTERISTIC_METHOD_READ_VALUE); LogInt (error_code e);
         LogStr (Some (error_message e))]
  | None => ret tt
  end.

Definition binc_internal_char_write_cb (res : GAsyncResult)
    (characteristic : Characteristic) : M unit :=
  let '(_, error) := g_dbus_connection_call_finish res in
  match on_write_callback characteristic with
  | Some callback => emit (EOnWrite callback error)
  | None => ret tt
  end ;;
  match error with
  | Some e =>
      log_debug TAG "failed to call '%s' (error %d: %s)"
        [LogStr (Some CHARACTERISTIC_METHOD_WRITE_VALUE); LogInt (error_code e);
         LogStr (Some (error_message e))]
  | None => ret tt
  end.

(** One turn of the [while (g_variant_iter_loop (...))] loop of
    [binc_internal_signal_characteristic_changed]. *)
Definition characteristic_changed_property (property_name : string)
    (property_value : GVariant) (characteristic : Characteristic) : M Characteristic :=
  if g_str_equal property_name CHARACTERISTIC_PROPERTY_NOTIFYING then
    let characteristic := with_notifying characteristic (g_variant_get_boolean property_value) in
    log_debug TAG "notifying %s <%s>"
      [LogStr (Some (if notifying characteristic then "true" else "false"));
       LogStr (uuid characteristic)] ;;
    match notify_state_callback characteristic with
    | Some callback => emit (EOnNotifyingStateChanged callback (notifying characteristic) None)
    | None => ret tt
    end ;;
    if Bool.eqb (notifying characteristic) false then
      if negb (characteristic_prop_changed characteristic =? 0) then
        g_dbus_connection_signal_unsubscribe (characteristic_prop_changed characteristic) ;;
        ret (with_characteristic_prop_changed characteristic 0)
      else ret characteristic
    else ret characteristic
  else if g_str_equal property_name CHARACTERISTIC_PROPERTY_VALUE then
    byteArray <- g_variant_get_byte_array (Some property_value) ;;
    log_debug TAG "notification <%s> on <%s>"
      [LogHex byteArray; LogStr (uuid characteristic)] ;;
    match on_notify_callback characteristic with
    | Some callback => emit (EOnNotify callback byteArray)
    | None => ret tt
    end ;;
    ret characteristic
  else ret characteristic.

Fixpoint characteristic_changed_loop (entries : list (string * GVariant))
    (characteristic : Characteristic) : M Characteristic :=
  match entries with
  | [] => ret characteristic
  | (property_name, property_value) :: rest =>
      characteristic <-
        characteristic_changed_property property_name property_value characteristic ;;
      characteristic_changed_loop rest characteristic
  end.

Definition binc_internal_signal_characteristic_changed (parameters : GVariant)
    (characteristic : Characteristic) : M Characteristic :=
  g_assert (g_str_equal (g_variant_get_type_string parameters) "(sa{sv}as)") ;;
  match parameters with
  | GVTuple [GVString iface; GVDict changed; GVStringArray unknown] =>
      characteristic_changed_loop changed characteristic
  | _ => fun _ => None
  end.

Definition binc_internal_char_start_notify_cb (res : GAsyncResult)
    (characteristic : Characteristic) : M unit :=
  let '(_, error) := g_dbus_connection_call_finish res in
  match error with
  | Some e =>
      log_debug TAG "failed to call '%s' (error %d: %s)"
        [LogStr (Some CHARACTERISTIC_METHOD_START_NOTIFY); LogInt (error_code e);
         LogStr (Some (error_message e))] ;;
      match notify_state_callback characteristic with
      | Some callback =>
          emit (EOnNotifyingStateChanged callback (notifying characteristic) (Some e))
      | None => ret tt
      end
  | None => ret tt
  end.

Definition binc_internal_char_stop_notify_cb (res : GAsyncResult)
    (characteristic : Characteristic) : M unit :=
  let '(_, error) := g_dbus_connection_call_finish res in
  match error with
  | Some e =>
      log_debug TAG "failed to call '%s' (error %d: %s)"
        [LogStr (Some CHARACTERISTIC_METHOD_STOP_NOTIFY); LogInt (error_code e);
         LogStr (Some (error_message e))] ;;
      match notify_state_callback characteristic with
      | Some callback =>
          emit (EOnNotifyingStateChanged callback (notifying characteristic) (Some e))
      | None => ret tt
      end
  | None => ret tt
  end.

Definition binc_characteristic_set_read_callback (characteristic : Characteristic)
    (callback : option OnReadCallback) : M Characteristic :=
  g_assert (match callback with Some _ => true | None => false end) ;;
  ret (with_on_read_callback characteristic callback).

Definition binc_characteristic_set_write_callback (characteristic : Characteristic)
    (callback : option OnWriteCallback) : M Characteristic :=
  g_assert (match callback with Some _ => true | None => false end) ;;
  ret (with_on_write_callback characteristic callback).

Definition binc_characteristic_set_notify_callback (characteristic : Characteristic)
    (callback : option OnNotifyCallback) : M Characteristic :=
  g_assert (match callback with Some _ => true | None => false end) ;;
  ret (with_on_notify_callback characteristic callback).

Definition binc_characteristic_set_notifying_state_change_callback
    (characteristic : Characteristic)
    (callback : option OnNotifyingStateChangedCallback) : M Characteristic :=
  g_assert (match callback with Some _ => true | None => false end) ;;
  ret (with_notify_state_callback characteristic callback).

Definition binc_characteristic_get_uuid (characteristic : Characteristic) : option string :=
  uuid characteristic.

Definition binc_characteristic_set_uuid (characteristic : Characteristic)
    (new_uuid : option string) : M Characteristic :=
  g_assert (match new_uuid with Some _ => true | None => false end) ;;
  ret (with_uuid characteristic new_uuid).

Definition binc_characteristic_get_service_uuid (characteristic : Characteristic) : option string :=
  service_uuid characteristic.

Definition binc_characteristic_get_device (characteristic : Characteristic) : option Device :=
  device characteristic.

Definition binc_characteristic_set_service_uuid (characteristic : Characteristic)
    (new_service_uuid : option string) : M Characteristic :=
  g_assert (match new_service_uuid with Some _ => true | None => false end) ;;
  ret (with_service_uuid characteristic new_service_uuid).

Definition binc_characteristic_get_service_path (characteristic : Characteristic) : option string :=
  service_path characteristic.

Definition binc_characteristic_set_service_path (characteristic : Characteristic)
    (new_service_path : option string) : M Characteristic :=
  g_assert (match new_service_path with Some _ => true | None => false end) ;;
  ret (with_service_path characteristic new_service_path).

Definition binc_characteristic_get_flags (characteristic : Characteristic) : list string :=
  flags characteristic.

Definition binc_characteristic_get_properties (characteristic : Characteristic) : Z :=
  properties characteristic.

Definition binc_characteristic_set_properties (characteristic : Characteristic)
    (new_properties : Z) : M Characteristic :=
  ret (with_properties characteristic new_properties).

Definition binc_characteristic_is_notifying (characteristic : Characteristic) : bool :=
  notifying characteristic.

(** ** Delivery of replies and signals by GDBus *)

Definition run_ready_callback (callback : ReadyCallback) (res : GAsyncResult)
    (characteristic : Characteristic) : M unit :=
  match callback with
  | char_read_cb => binc_internal_char_read_cb res characteristic
  | char_write_cb => binc_internal_char_write_cb res characteristic
  | char_start_notify_cb => binc_internal_char_start_notify_cb res characteristic
  | char_stop_notify_cb => binc_internal_char_stop_notify_cb res characteristic
  end.

Fixpoint remove_nth {A : Type} (n : nat) (l : list A) : list A :=
  match l, n with
  | [], _ => []
  | _ :: r, O => r
  | x :: r, S n' => x :: remove_nth n' r
  end.

(** The reply to the [index]-th call in flight arrives: the call leaves the
    pending list and its completion handler runs, once.  Nothing happens when
    there is no such call. *)
Definition g_dbus_reply_arrives (index : nat) (reply : Reply)
    (characteristic : Characteristic) : M unit :=
  fun w =>
    match nth_error (pending_calls (bus w)) index with
    | None => Some (tt, w)
    | Some call =>
        run_ready_callback (call_callback call)
          (g_dbus_async_result (call_reply_type call) reply) characteristic
          (mkWorld
             (mkGDBusConnection (next_subscription_id (bus w)) (subscriptions (bus w))
                (remove_nth index (pending_calls (bus w))))
             (trace w))
    end.

Definition is_subscribed (id : Z) (w : World) : bool :=
  existsb (Z.eqb id) (subscriptions (bus w)).

(** GDBus schedules one handler call per subscription registered when the
    signal arrives, and skips a subscription that has been removed by the time
    its turn comes. *)
Fixpoint g_dbus_deliver (scheduled : list Z) (parameters : GVariant)
    (characteristic : Characteristic) : M Characteristic :=
  match scheduled with
  | [] => ret characteristic
  | id :: rest =>
      fun w =>
        if is_subscribed id w then
          (characteristic <-
             binc_internal_signal_characteristic_changed parameters characteristic ;;
           g_dbus_deliver rest parameters characteristic) w
        else g_dbus_deliver rest parameters characteristic w
  end.

(** A [PropertiesChanged] signal of the characteristic's object arrives. *)
Definition g_dbus_signal_arrives (parameters : GVariant)
    (characteristic : Characteristic) : M Characteristic :=
  fun w => g_dbus_deliver (subscriptions (bus w)) parameters characteristic w.

Section Capabilities.

Context {P : GattChrProp}.

Fixpoint flags_to_int_loop (iterator : list string) (result : Z) : Z :=
  match iterator with
  | [] => result
  | property :: next =>
      flags_to_int_loop next
        (if g_str_equal property "broadcast" then
           guint_add result GATT_CHR_PROP_BROADCAST
         else if g_str_equal property "read" then
           guint_add result GATT_CHR_PROP_READ
         else if g_str_equal property "write-without-response" then
           guint_add result GATT_CHR_PROP_WRITE_WITHOUT_RESP
         else if g_str_equal property "write" then
           guint_add result GATT_CHR_PROP_WRITE
         else if g_str_equal property "notify" then
           guint_add result GATT_CHR_PROP_NOTIFY
         else if g_str_equal property "indicate" then
           guint_add result GATT_CHR_PROP_INDICATE
         else if g_str_equal property "authenticated-signed-writes" then
           guint_add result GATT_CHR_PROP_AUTH
         else result)
  end.

Definition binc_characteristic_flags_to_int (flag_list : list string) : Z :=
  let result := 0 in
  if (0 <? List.length flag_list)%nat then flags_to_int_loop flag_list result else result.

Definition binc_characteristic_set_flags (characteristic : Characteristic)
    (flag_list : list string) : M Characteristic :=
  g_assert (match flag_list with [] => false | _ :: _ => true end) ;;
  match flags characteristic with
  | [] => ret tt
  | _ :: _ => emit (EListFreeFull (flags characteristic))
  end ;;
  let characteristic := with_flags characteristic flag_list in
  ret (with_properties characteristic (binc_characteristic_flags_to_int flag_list)).

Definition binc_characteristic_supports_write (characteristic : Characteristic)
    (writeType : WriteType) : bool :=
  if WriteType_eqb writeType WITH_RESPONSE then
    0 <? Z.land (properties characteristic) GATT_CHR_PROP_WRITE
  else
    0 <? Z.land (properties characteristic) GATT_CHR_PROP_WRITE_WITHOUT_RESP.

Definition binc_characteristic_supports_read (characteristic : Characteristic) : bool :=
  0 <? Z.land (properties characteristic) GATT_CHR_PROP_READ.

Definition binc_characteristic_supports_notify (characteristic : Characteristic) : bool :=
  (0 <? Z.land (properties characteristic) GATT_CHR_PROP_INDICATE)
  || (0 <? Z.land (properties characteristic) GATT_CHR_PROP_NOTIFY).

Definition binc_characteristic_read (characteristic : Characteristic) : M unit :=
  g_assert (0 <? Z.land (properties characteristic) GATT_CHR_PROP_READ) ;;
  log_debug TAG "reading <%s>" [LogStr (uuid characteristic)] ;;
  let offset := 0 in
  let options := GVDict [("offset", GVUint16 offset)] in
  g_dbus_connection_call BLUEZ_DBUS (path characteristic) INTERFACE_CHARACTERISTIC
    CHARACTERISTIC_METHOD_READ_VALUE (Some (GVTuple [options])) (Some "(ay)")
    char_read_cb.

(** The [for] loop that copies the bytes into the ["ay"] builder. *)
Fixpoint byte_array_builder (data : list byte) (builder1 : list byte) : list byte :=
  match data with
  | [] => builder1
  | b :: rest => byte_array_builder rest (builder1 ++ [b])
  end.

Definition binc_characteristic_write (characteristic : Characteristic)
    (byteArray : option (list byte)) (writeType : WriteType) : M unit :=
  match byteArray with
  | None => fun _ => None
  | Some data =>
      g_assert (binc_characteristic_supports_write characteristic writeType) ;;
      log_debug TAG "writing <%s> to <%s>" [LogHex data; LogStr (uuid characteristic)] ;;
      let value := GVByteArray (byte_array_builder data []) in
      let offset := 0 in
      let writeTypeString :=
        if WriteType_eqb writeType WITH_RESPONSE then "request" else "command" in
      let options :=
        GVDict [("offset", GVUint16 offset); ("type", GVString writeTypeString)] in
      g_dbus_connection_call BLUEZ_DBUS (path characteristic) INTERFACE_CHARACTERISTIC
        CHARACTERISTIC_METHOD_WRITE_VALUE (Some (GVTuple [value; options])) None
        char_write_cb
  end.

Definition binc_characteristic_start_notify (characteristic : Characteristic) : M Characteristic :=
  g_assert (binc_characteristic_supports_notify characteristic) ;;
  log_debug TAG "start notify for <%s>" [LogStr (uuid characteristic)] ;;
  id <- g_dbus_connection_signal_subscribe BLUEZ_DBUS "org.freedesktop.DBus.Properties"
          "PropertiesChanged" (path characteristic) INTERFACE_CHARACTERISTIC ;;
  let characteristic := with_characteristic_prop_changed characteristic id in
  g_dbus_connection_call BLUEZ_DBUS (path characteristic) INTERFACE_CHARACTERISTIC
    CHARACTERISTIC_METHOD_START_NOTIFY None None char_start_notify_cb ;;
  ret characteristic.

Definition binc_characteristic_stop_notify (characteristic : Characteristic) : M unit :=
  g_assert ((0 <? Z.land (properties characteristic) GATT_CHR_PROP_INDICATE)
            || (0 <? Z.land (properties characteristic) GATT_CHR_PROP_NOTIFY)) ;;
  g_dbus_connection_call BLUEZ_DBUS (path characteristic) INTERFACE_CHARACTERISTIC
    CHARACTERISTIC_METHOD_STOP_NOTIFY None None char_stop_notify_cb.

(** ** Runs: the application's calls interleaved with what GDBus delivers *)

Inductive Action : Type :=
| ASetReadCallback (callback : option OnReadCallback)
| ASetWriteCallback (callback : option OnWriteCallback)
| ASetNotifyCallback (callback : option OnNotifyCallback)
| ASetNotifyingStateChangeCallback (callback : option OnNotifyingStateChangedCallback)
| ASetUuid (value : option string)
| ASetServiceUuid (value : option string)
| ASetServicePath (value : option string)
| ASetFlags (flag_list : list string)
| ASetProperties (value : Z)
| ARead
| AWrite (byteArray : option (list byte)) (writeType : WriteType)
| AStartNotify
| AStopNotify
| AReply (index : nat) (reply : Reply)
| ASignal (parameters : GVariant).

Definition step (a : Action) (characteristic : Characteristic) : M Characteristic :=
  match a with
  | ASetReadCallback cb => binc_characteristic_set_read_callback characteristic cb
  | ASetWriteCallback cb => binc_characteristic_set_write_callback characteristic cb
  | ASetNotifyCallback cb => binc_characteristic_set_notify_callback characteristic cb
  | ASetNotifyingStateChangeCallback cb =>
      binc_characteristic_set_notifying_state_change_callback characteristic cb
  | ASetUuid v => binc_characteristic_set_uuid characteristic v
  | ASetServiceUuid v => binc_characteristic_set_service_uuid characteristic v
  | ASetServicePath v => binc_characteristic_set_service_path characteristic v
  | ASetFlags l => binc_characteristic_set_flags characteristic l
  | ASetProperties v => binc_characteristic_set_properties characteristic v
  | ARead => binc_characteristic_read characteristic ;; ret characteristic
  | AWrite data wt => binc_characteristic_write characteristic data wt ;; ret characteristic
  | AStartNotify => binc_characteristic_start_notify characteristic
  | AStopNotify => binc_characteristic_stop_notify characteristic ;; ret characteristic
  | AReply index reply => g_dbus_reply_arrives index reply characteristic ;; ret characteristic
  | ASignal parameters => g_dbus_signal_arrives parameters characteristic
  end.

Fixpoint run (actions : list Action) (characteristic : Characteristic) : M Characteristic :=
  match actions with
  | [] => ret characteristic
  | a :: rest =>
      characteristic <- step a characteristic ;;
      run rest characteristic
  end.

End Capabilities.

(** A connection on which the characteristic has not subscribed or called
    anything yet. *)
Definition fresh_world (first_id : Z) : World :=
  mkWorld (mkGDBusConnection first_id [] []) [].

(** The bit values of the characteristic-properties field of the Bluetooth
    core specification, used for the concrete runs below. *)
Definition bluetooth_gatt_chr_prop : GattChrProp :=
  Build_GattChrProp 1 2 4 8 16 32 64.

(** ** Observations on traces *)

Definition is_callback_effect (e : Effect) : bool :=
  match e with
  | EOnRead _ _ _ | EOnWrite _ _ | EOnNotifyingStateChanged _ _ _ | EOnNotify _ _ => true
  | _ => false
  end.

(** The user callbacks invoked in a stretch of trace, in order. *)
Definition callback_effects (t : list Effect) : list Effect :=
  filter is_callback_effect t.

Definition is_unsubscribe_effect (e : Effect) : bool :=
  match e with
  | ESignalUnsubscribe _ => true
  | _ => false
  end.

(** How many times [g_dbus_connection_signal_unsubscribe] ran. *)
Definition unsubscribe_count (t : list Effect) : nat :=
  List.length (filter is_unsubscribe_effect t).

(** A [PropertiesChanged] signal that reports the single property [Notifying]. *)
Definition notifying_changed (value : bool) : GVariant :=
  GVTuple [GVString INTERFACE_CHARACTERISTIC;
           GVDict [(CHARACTERISTIC_PROPERTY_NOTIFYING, GVBoolean value)];
           GVStringArray []].

(** A [PropertiesChanged] signal that reports the single property [Value]. *)
Definition value_changed (data : list byte) : GVariant :=
  GVTuple [GVString INTERFACE_CHARACTERISTIC;
           GVDict [(CHARACTERISTIC_PROPERTY_VALUE, GVByteArray data)];
           GVStringArray []].

(** ** The capability model as the specification words it *)

Section CapabilityModel.

Context {P : GattChrProp}.

(** The fixed token-to-bit table; a token outside the table maps to no bit. *)
Definition flag_bit (token : string) : Z :=
  if g_str_equal token "broadcast" then GATT_CHR_PROP_BROADCAST
  else if g_str_equal token "read" then GATT_CHR_PROP_READ
  else if g_str_equal token "write-without-response" then GATT_CHR_PROP_WRITE_WITHOUT_RESP
  else if g_str_equal token "write" then GATT_CHR_PROP_WRITE
  else if g_str_equal token "notify" then GATT_CHR_PROP_NOTIFY
  else if g_str_equal token "indicate" then GATT_CHR_PROP_INDICATE
  else if g_str_equal token "authenticated-signed-writes" then GATT_CHR_PROP_AUTH
  else 0.

(** The bitwise OR of the bits of the tokens of a flag set. *)
Definition properties_of_flags (flag_set : list string) : Z :=
  fold_right (fun token acc => Z.lor (flag_bit token) acc) 0 flag_set.

Definition gatt_chr_prop_values : list Z :=
  [GATT_CHR_PROP_BROADCAST; GATT_CHR_PROP_READ; GATT_CHR_PROP_WRITE_WITHOUT_RESP;
   GATT_CHR_PROP_WRITE; GATT_CHR_PROP_NOTIFY; GATT_CHR_PROP_INDICATE;
   GATT_CHR_PROP_AUTH].

Fixpoint pairwise_disjoint (values : list Z) : Prop :=
  match values with
  | [] => True
  | a :: rest => Forall (fun b => Z.land a b = 0) rest /\ pairwise_disjoint rest
  end.

(** The seven macros are bit values of a [guint]: each fits in 32 bits and
    no two of them share a bit. *)
Definition gatt_chr_prop_are_bits : Prop :=
  Forall (fun a => 0 <= a < guint_modulus) gatt_chr_prop_values
  /\ pairwise_disjoint gatt_chr_prop_values.

End CapabilityModel.

Definition recognized_tokens : list string :=
  ["broadcast"; "read"; "write-without-response"; "write"; "notify"; "indicate";
   "authenticated-signed-writes"].

Fixpoint distinct_strings (l : list string) : bool :=
  match l with
  | [] => true
  | x :: rest => negb (existsb (String.eqb x) rest) && distinct_strings rest
  end.

(** ** Disciplines on runs *)

(** The keys of the changed-properties dictionary of a signal are pairwise
    distinct, as D-Bus requires of a dictionary. *)
Definition dict_keys_distinct (parameters : GVariant) : bool :=
  match parameters with
  | GVTuple [GVString _; GVDict changed; GVStringArray _] =>
      distinct_strings (map fst changed)
  | _ => true
  end.

(** The caller starts notifications only when the characteristic holds no
    subscription, and signals are well-formed. *)
Definition single_subscription_action (a : Action) (characteristic : Characteristic) : bool :=
  match a with
  | AStartNotify => characteristic_prop_changed characteristic =? 0
  | ASignal parameters => dict_keys_distinct parameters
  | _ => true
  end.

Fixpoint single_subscription {P : GattChrProp} (actions : list Action)
    (characteristic : Characteristic) (w : World) : bool :=
  match actions with
  | [] => true
  | a :: rest =>
      single_subscription_action a characteristic
      && match step a characteristic w with
         | Some (characteristic', w') => single_subscription rest characteristic' w'
         | None => true
         end
  end.

(** The bitmask is only ever assigned through [binc_characteristic_set_flags],
    with flag lists that hold no token twice. *)
Definition flags_only_action (a : Action) : bool :=
  match a with
  | ASetProperties _ => false
  | ASetFlags flag_list => distinct_strings flag_list
  | _ => true
  end.

(** The characteristic holds at most one subscription and the connection
    knows exactly that one; without a subscription [notifying] is false. *)
Definition subscription_invariant (c : Characteristic) (w : World) : Prop :=
  0 < next_subscription_id (bus w)
  /\ ((characteristic_prop_changed c = 0
       /\ subscriptions (bus w) = []
       /\ notifying c = false)
      \/ (0 < characteristic_prop_changed c < next_subscription_id (bus w)
          /\ subscriptions (bus w) = [characteristic_prop_changed c])).

(** The changed-properties dictionary of a signal has an entry [Notifying]
    whose value reads as false. *)
Definition reports_notifying_false (parameters : GVariant) : bool :=
  match parameters with
  | GVTuple [GVString _; GVDict changed; GVStringArray _] =>
      existsb (fun entry =>
                 g_str_equal (fst entry) CHARACTERISTIC_PROPERTY_NOTIFYING
                 && negb (g_variant_get_boolean (snd entry)))
        changed
  | _ => false
  end.

(** Running [m] in [w] returns, and the user callbacks invoked on the way
    are exactly [invoked], in that order. *)
Definition invokes {A : Type} (m : M A) (w : World) (invoked : list Effect) : Prop :=
  exists a w',
    m w = Some (a, w')
    /\ callback_effects (trace w') = callback_effects (trace w) ++ invoked.

(** ** Concrete data for the examples *)

Definition example_device : Device := mkDevice "/org/bluez/hci0/dev_00_11_22_33_44_55" 1.

Definition example_path : option string :=
  Some "/org/bluez/hci0/dev_00_11_22_33_44_55/service0010/char0011".

Definition example_characteristic : Characteristic :=
  binc_characteristic_create example_device example_path.

(** The example characteristic once discovery has set the flag "notify". *)
Definition example_notify_characteristic : Characteristic :=
  with_properties (with_flags example_characteristic ["notify"]) 16.

(** Discovery sets the flags, the application starts notifications and the
    peripheral confirms. *)
Definition example_notifying_run : list Action :=
  [ASetFlags ["notify"]; AStartNotify; ASignal (notifying_changed true)].

(** A signal that reports a value and then [Notifying = false]. *)
Definition value_then_notifying_false : GVariant :=
  GVTuple [GVString INTERFACE_CHARACTERISTIC;
           GVDict [(CHARACTERISTIC_PROPERTY_VALUE, GVByteArray [x01]);
                   (CHARACTERISTIC_PROPERTY_NOTIFYING, GVBoolean false)];
           GVStringArray []].

(** The answer of the remote end to a call that succeeded and returns
    nothing. *)
Definition reply_done : Reply := ReplyValue (GVTuple []).

(** The application starts notifications, waits for the call to complete,
    and starts them again; the peripheral then reports that notifications
    stopped, and later that they are on again. *)
Definition example_restarted_run : list Action :=
  [ASetFlags ["notify"]; AStartNotify; AReply 0 reply_done;
   AStartNotify; AReply 0 reply_done;
   ASignal (notifying_changed false); ASignal (notifying_changed true)].

(** A signal whose dictionary holds the key [Notifying] twice, false and
    then true. *)
Definition notifying_changed_twice : GVariant :=
  GVTuple [GVString INTERFACE_CHARACTERISTIC;
           GVDict [(CHARACTERISTIC_PROPERTY_NOTIFYING, GVBoolean false);
                   (CHARACTERISTIC_PROPERTY_NOTIFYING, GVBoolean true)];
           GVStringArray []].

(** The application starts notifications once, the call completes, and such
    a signal arrives. *)
Definition example_repeated_key_run : list Action :=
  [ASetFlags ["notify"]; AStartNotify; AReply 0 reply_done;
   ASignal notifying_changed_twice].

(** Every [Value] entry of the changed-properties dictionary of a signal
    holds a byte array. *)
Definition value_entries_are_bytes (parameters : GVariant) : bool :=
  match parameters with
  | GVTuple [GVString _; GVDict changed; GVStringArray _] =>
      forallb (fun entry =>
                 g_str_equal (fst entry) CHARACTERISTIC_PROPERTY_NOTIFYING
                 || negb (g_str_equal (fst entry) CHARACTERISTIC_PROPERTY_VALUE)
                 || match snd entry with
                    | GVByteArray _ => true
                    | _ => false
                    end)
        changed
  | _ => true
  end.

(** The four kinds of callback, the slot of each kind, and the slot that a
    recorded invocation was read from. *)
Inductive CallbackKind : Type :=
| ReadCallback
| WriteCallback
| NotifyingStateCallback
| NotifyCallback.

Definition slot (c : Characteristic) (kind : CallbackKind) : option nat :=
  match kind with
  | ReadCallback => on_read_callback c
  | WriteCallback => on_write_callback c
  | NotifyingStateCallback => notify_state_callback c
  | NotifyCallback => on_notify_callback c
  end.

Definition invoked_callback (e : Effect) : option (CallbackKind * nat) :=
  match e with
  | EOnRead callback _ _ => Some (ReadCallback, callback)
  | EOnWrite callback _ => Some (WriteCallback, callback)
  | EOnNotifyingStateChanged callback _ _ => Some (NotifyingStateCallback, callback)
  | EOnNotify callback _ => Some (NotifyCallback, callback)
  | _ => None
  end.

(** An effect that is the invocation of a callback invokes the callback that
    the slot of its kind holds. *)
Definition invoked_from_slots (c : Characteristic) (e : Effect) : Prop :=
  match invoked_callback e with
  | Some (kind, callback) => slot c kind = Some callback
  | None => True
  end.

(** ** The debug representation *)

(** [g_string_truncate (string, len)]: the first [len] characters. *)
Definition g_string_truncate (s : string) (len : nat) : string :=
  String.substring 0 len s.

(** The [for] loop of [binc_characteristic_to_string]:
    [g_string_append_printf (flags, "%s, ", iterator->data)]. *)
Fixpoint flags_string_loop (iterator : list string) (flags_str : string) : string :=
  match iterator with
  | [] => flags_str
  | data :: next => flags_string_loop next (flags_str ++ data ++ ", ")%string
  end.

(** [%s] of a C string; glibc prints a NULL pointer as [(null)]. *)
Definition printf_s (s : option string) : string :=
  match s with
  | Some v => v
  | None => "(null)"
  end.

(** [%d] of a [guint]: the 32 bits are read as a signed [int] and written
    in decimal. *)
Definition printf_d (n : Z) : string :=
  let bits := n mod guint_modulus in
  let signed := if bits <? 2 ^ 31 then bits else bits - guint_modulus in
  DecimalString.NilZero.string_of_int (Z.to_int signed).

Definition characteristic_flags_string (characteristic : Characteristic) : string :=
  let flags_str := "[" in
  let flags_str :=
    if (0 <? List.length (flags characteristic))%nat then
      let flags_str := flags_string_loop (flags characteristic) flags_str in
      g_string_truncate flags_str (String.length flags_str - 2)
    else flags_str in
  (flags_str ++ "]")%string.

Definition binc_characteristic_to_string (characteristic : Characteristic) : string :=
  ("Characteristic{uuid='" ++ printf_s (uuid characteristic)
   ++ "', flags='" ++ characteristic_flags_string characteristic
   ++ "', properties=" ++ printf_d (properties characteristic)
   ++ ", service_uuid='" ++ printf_s (service_uuid characteristic) ++ "'}")%string.

(** ** Further observations *)

(** The sum of the bits of the tokens of a flag list, each occurrence
    counted. *)
Definition flag_bits_sum {P : GattChrProp} (flag_list : list string) : Z :=
  fold_right (fun token acc => flag_bit token + acc) 0 flag_list.

(** Each of the seven macros has a bit set. *)
Definition gatt_chr_prop_nonzero {P : GattChrProp} : Prop :=
  Forall (fun a => 0 < a) gatt_chr_prop_values.

(** The fields that say which characteristic this is and whom to tell. *)
Definition identity_and_callbacks (c : Characteristic) :=
  (device c, connection c, path c, uuid c, service_path c, service_uuid c,
   (notify_state_callback c, on_read_callback c, on_write_callback c,
    on_notify_callback c)).

(** Calls and deliveries other than the setters of the identity fields and
    of the callbacks. *)
Definition operation_action (a : Action) : bool :=
  match a with
  | ASetReadCallback _ | ASetWriteCallback _ | ASetNotifyCallback _
  | ASetNotifyingStateChangeCallback _
  | ASetUuid _ | ASetServiceUuid _ | ASetServicePath _ => false
  | _ => true
  end.

(** A key of the changed-properties dictionary that the handler knows. *)
Definition known_property (name : string) : bool :=
  g_str_equal name CHARACTERISTIC_PROPERTY_NOTIFYING
  || g_str_equal name CHARACTERISTIC_PROPERTY_VALUE.

(** A characteristic with a uuid and a read callback. *)
Definition example_named_characteristic : Characteristic :=
  with_on_read_callback
    (with_uuid example_characteristic (Some "00002a37-0000-1000-8000-00805f9b34fb"))
    (Some 7%nat).

(** The application's own calls, as opposed to what GDBus delivers. *)
Definition call_action (a : Action) : bool :=
  match a with
  | AReply _ _ | ASignal _ => false
  | _ => true
  end.

(** ** Basic facts *)

Ltac unfold_m :=
  unfold bind, ret, emit, log_debug, g_assert,
    g_dbus_connection_signal_unsubscribe, g_dbus_connection_signal_subscribe,
    g_dbus_connection_call in *.

Ltac run_m := repeat (progress (unfold_m; cbn)).

Ltac trace_facts :=
  cbn [trace bus subscriptions pending_calls next_subscription_id];
  unfold unsubscribe_count, callback_effects;
  rewrite ?filter_app, ?length_app;
  cbn [filter is_unsubscribe_effect is_callback_effect List.length app];
  rewrite ?app_nil_r, ?Nat.add_0_r;
  try reflexivity; try lia.

Lemma bind_ret_r {A : Type} (m : M A) (w : World) :
  bind m (fun a => ret a) w = m w.
Proof.
  unfold bind, ret. destruct (m w) as [[a w']|]; reflexivity.
Qed.

(** A reply that passed the ["(ay)"] check is a tuple holding one byte array. *)
Lemma type_string_ay_tuple (v : GVariant) :
  g_str_equal (g_variant_get_type_string v) "(ay)" = true ->
  exists data, v = GVTuple [GVByteArray data].
Proof.
  unfold g_str_equal. intros H. apply String.eqb_eq in H.
  destruct v as [b|q|s|data|strv|entries|children]; cbn in H; try discriminate.
  destruct children as [|x r]; cbn in H; [discriminate|].
  destruct x as [b|q|s|data|strv|entries|inner]; cbn in H; try discriminate.
  destruct r as [|y r']; cbn in H; [exists data; reflexivity|].
  destruct y; cbn in H; discriminate.
Qed.

(** What the signal handler does with a signal that reports
    [Notifying = false], in the four combinations of callback and handle. *)
Lemma notifying_false_handled (c : Characteristic) (w : World) :
  binc_internal_signal_characteristic_changed (notifying_changed false) c w =
  Some (with_characteristic_prop_changed (with_notifying c false) 0,
        mkWorld
          (if characteristic_prop_changed c =? 0 then bus w
           else mkGDBusConnection (next_subscription_id (bus w))
                  (remove Z.eq_dec (characteristic_prop_changed c) (subscriptions (bus w)))
                  (pending_calls (bus w)))
          (trace w
           ++ [ELogDebug TAG "notifying %s <%s>" [LogStr (Some "false"); LogStr (uuid c)]]
           ++ match notify_state_callback c with
              | Some callback => [EOnNotifyingStateChanged callback false None]
              | None => []
              end
           ++ if characteristic_prop_changed c =? 0 then []
              else [ESignalUnsubscribe (characteristic_prop_changed c)])).
Proof.
  unfold binc_internal_signal_characteristic_changed, notifying_changed.
  destruct (Z.eqb_spec (characteristic_prop_changed c) 0) as [E|E].
  - replace (with_characteristic_prop_changed (with_notifying c false) 0)
      with (with_notifying c false)
      by (destruct c; cbn in *; subst; reflexivity).
    run_m. apply Z.eqb_eq in E. rewrite E.
    destruct (notify_state_callback c); run_m;
      rewrite <- ?app_assoc; cbn [app]; rewrite ?app_nil_r; reflexivity.
  - run_m. apply Z.eqb_neq in E. rewrite E.
    destruct (notify_state_callback c); run_m;
      rewrite <- ?app_assoc; cbn [app]; reflexivity.
Qed.

Lemma characteristic_free_result (c : Characteristic) (w : World) :
  binc_characteristic_free c w =
  Some (tt,
        mkWorld
          (if characteristic_prop_changed c =? 0 then bus w
           else mkGDBusConnection (next_subscription_id (bus w))
                  (remove Z.eq_dec (characteristic_prop_changed c) (subscriptions (bus w)))
                  (pending_calls (bus w)))
          (trace w
           ++ (if characteristic_prop_changed c =? 0 then []
               else [ESignalUnsubscribe (characteristic_prop_changed c)])
           ++ match flags c with
              | [] => []
              | _ :: _ => [EListFreeFull (flags c)]
              end)).
Proof.
  destruct w as [b t]. unfold binc_characteristic_free. run_m.
  destruct (characteristic_prop_changed c =? 0); run_m;
    destruct (flags c); run_m; rewrite <- ?app_assoc; cbn [app];
    rewrite ?app_nil_r; reflexivity.
Qed.

(** ** Creation *)

(** C10: a freshly created characteristic has [notifying = FALSE],
    [properties = 0], no flags, no signal subscription and none of the four
    callbacks; the device, its connection and the object path are the only
    fields that are set (the uuid and the service identity are still NULL). *)
Theorem create_initial_state (dev : Device) (object_path : option string) :
  let c := binc_characteristic_create dev object_path in
  notifying c = false
  /\ properties c = 0
  /\ flags c = []
  /\ characteristic_prop_changed c = 0
  /\ on_read_callback c = None
  /\ on_write_callback c = None
  /\ notify_state_callback c = None
  /\ on_notify_callback c = None
  /\ device c = Some dev
  /\ connection c = binc_device_get_dbus_connection dev
  /\ path c = object_path
  /\ uuid c = None
  /\ service_path c = None
  /\ service_uuid c = None.
Proof.
  cbn. repeat split; reflexivity.
Qed.

(** ** Flag assignment *)

(** C9: [binc_characteristic_set_flags] with an empty flag list fails its
    assertion and aborts; with any non-empty list it returns, the new list
    replaces the old one, whose elements are released when there were any, and
    the bitmask is recomputed from the new list. *)
Theorem set_flags_rejects_empty_list {P : GattChrProp} (c : Characteristic) (w : World) :
  binc_characteristic_set_flags c [] w = None
  /\ forall (token : string) (rest : list string),
       binc_characteristic_set_flags c (token :: rest) w =
       Some (with_properties (with_flags c (token :: rest))
               (binc_characteristic_flags_to_int (token :: rest)),
             match flags c with
             | [] => w
             | _ :: _ => mkWorld (bus w) (trace w ++ [EListFreeFull (flags c)])
             end).
Proof.
  split; [reflexivity|].
  intros token rest. unfold binc_characteristic_set_flags. unfold_m. cbn.
  destruct (flags c); reflexivity.
Qed.

(** ** Completion handlers *)

(** C5: when the StartNotify call fails, the handler logs the failure and
    invokes the notify-state-change callback, if there is one, exactly once
    with the transport error; the connection, and with it the signal
    subscription made by [binc_characteristic_start_notify], is untouched. *)
Theorem start_notify_failure_reported_once (e : GError) (c : Characteristic) (w : World) :
  g_dbus_async_result None (ReplyError e) = AsyncError e
  /\ exists w',
       binc_internal_char_start_notify_cb (AsyncError e) c w = Some (tt, w')
       /\ bus w' = bus w
       /\ (forall id, is_subscribed id w' = is_subscribed id w)
       /\ callback_effects (trace w') =
          (callback_effects (trace w) ++
           match notify_state_callback c with
           | Some callback => [EOnNotifyingStateChanged callback (notifying c) (Some e)]
           | None => []
           end)%list
       /\ unsubscribe_count (trace w') = unsubscribe_count (trace w).
Proof.
  split; [reflexivity|].
  unfold binc_internal_char_start_notify_cb. unfold_m. cbn.
  destruct (notify_state_callback c) as [callback|]; eexists;
    (split; [reflexivity|]); repeat split; trace_facts.
Qed.

(** C6: [binc_characteristic_read] makes the ReadValue call with reply type
    ["(ay)"] and [binc_internal_char_read_cb] as completion handler.  Whatever
    the remote end answers, the handler returns.  When the call succeeded the
    reply is a tuple holding one byte array, and the read callback is invoked
    exactly once with those bytes and no error; when it failed the callback is
    invoked exactly once with no bytes and the error of the transport, and the
    failure is logged after the callback returned; without a registered
    callback no callback is invoked.  The connection is left as it is. *)
Theorem read_completion_reports_once {P : GattChrProp}
    (reply : Reply) (c : Characteristic) (w : World) :
  (binc_characteristic_read c w =
     if binc_characteristic_supports_read c then
       Some (tt,
             mkWorld
               (mkGDBusConnection (next_subscription_id (bus w)) (subscriptions (bus w))
                  (pending_calls (bus w) ++
                   [mkPendingCall CHARACTERISTIC_METHOD_READ_VALUE (Some "(ay)")
                      char_read_cb]))
               (trace w ++
                [ELogDebug TAG "reading <%s>" [LogStr (uuid c)];
                 EDBusCall BLUEZ_DBUS (path c) INTERFACE_CHARACTERISTIC
                   CHARACTERISTIC_METHOD_READ_VALUE
                   (Some (GVTuple [GVDict [("offset", GVUint16 0)]])) (Some "(ay)")]))
     else None)
  /\ match g_dbus_async_result (Some "(ay)") reply with
  | AsyncValue value =>
      exists data,
        value = GVTuple [GVByteArray data]
        /\ binc_internal_char_read_cb (AsyncValue value) c w =
           Some (tt,
                 match on_read_callback c with
                 | Some callback =>
                     mkWorld (bus w) (trace w ++ [EOnRead callback (Some data) None])
                 | None => w
                 end)
  | AsyncError e =>
      binc_internal_char_read_cb (AsyncError e) c w =
      Some (tt,
            mkWorld (bus w)
              (trace w
               ++ match on_read_callback c with
                  | Some callback => [EOnRead callback None (Some e)]
                  | None => []
                  end
               ++ [ELogDebug TAG "failed to call '%s' (error %d: %s)"
                     [LogStr (Some CHARACTERISTIC_METHOD_READ_VALUE);
                      LogInt (error_code e); LogStr (Some (error_message e))]]))
  end.
Proof.
  split.
  { unfold binc_characteristic_read, binc_characteristic_supports_read. unfold_m.
    destruct (0 <? Z.land (properties c) GATT_CHR_PROP_READ); cbn;
      rewrite <- ?app_assoc; reflexivity. }
  assert (Herr : forall e,
    binc_internal_char_read_cb (AsyncError e) c w =
      Some (tt,
            mkWorld (bus w)
              (trace w
               ++ match on_read_callback c with
                  | Some callback => [EOnRead callback None (Some e)]
                  | None => []
                  end
               ++ [ELogDebug TAG "failed to call '%s' (error %d: %s)"
                     [LogStr (Some CHARACTERISTIC_METHOD_READ_VALUE);
                      LogInt (error_code e); LogStr (Some (error_message e))]]))).
  { intros e. unfold binc_internal_char_read_cb. run_m.
    destruct (on_read_callback c); run_m; rewrite <- ?app_assoc; reflexivity. }
  destruct reply as [value|e]; cbn [g_dbus_async_result]; [|apply Herr].
  destruct (g_str_equal (g_variant_get_type_string value) "(ay)") eqn:Hty;
    [|apply Herr].
  destruct (type_string_ay_tuple value Hty) as [data ->].
  exists data. split; [reflexivity|].
  unfold binc_internal_char_read_cb. run_m.
  destruct (on_read_callback c); run_m; reflexivity.
Qed.

(** ** Release of the signal subscription *)

(** C7: from any state, the handler of a signal reporting [Notifying = false]
    followed by [binc_characteristic_free] both return, and together they call
    unsubscribe once when the characteristic held a subscription and not at
    all when it held none: the handler clears the handle after unsubscribing,
    so the guard in [binc_characteristic_free] skips the second release.  The
    same count holds for [binc_characteristic_free] alone. *)
Theorem release_twice_unsubscribes_once (c : Characteristic) (w : World) :
  (exists c1 w1 w2,
     binc_internal_signal_characteristic_changed (notifying_changed false) c w = Some (c1, w1)
     /\ characteristic_prop_changed c1 = 0
     /\ binc_characteristic_free c1 w1 = Some (tt, w2)
     /\ unsubscribe_count (trace w1) =
        (unsubscribe_count (trace w)
         + (if (characteristic_prop_changed c =? 0)%Z then 0 else 1))%nat
     /\ unsubscribe_count (trace w2) = unsubscribe_count (trace w1)
     /\ subscriptions (bus w2) = subscriptions (bus w1))
  /\ (exists w3,
        binc_characteristic_free c w = Some (tt, w3)
        /\ unsubscribe_count (trace w3) =
           (unsubscribe_count (trace w)
            + (if (characteristic_prop_changed c =? 0)%Z then 0 else 1))%nat).
Proof.
  split.
  - rewrite notifying_false_handled. do 3 eexists.
    split; [reflexivity|]. split; [reflexivity|].
    rewrite characteristic_free_result. split; [reflexivity|].
    cbn [characteristic_prop_changed with_characteristic_prop_changed
         with_notifying flags Z.eqb].
    destruct (characteristic_prop_changed c =? 0), (notify_state_callback c),
      (flags c); repeat split; trace_facts.
  - rewrite characteristic_free_result. eexists. split; [reflexivity|].
    destruct (characteristic_prop_changed c =? 0), (flags c); trace_facts.
Qed.

(** ** Callback registration *)

(** C8 as stated fails: registering a NULL callback does not clear the slot,
    each of the four setters asserts that the callback is not NULL and
    aborts. *)
Lemma null_callback_registration_aborts :
  binc_characteristic_set_read_callback example_characteristic None (fresh_world 1) = None
  /\ binc_characteristic_set_write_callback example_characteristic None (fresh_world 1) = None
  /\ binc_characteristic_set_notify_callback example_characteristic None (fresh_world 1) = None
  /\ binc_characteristic_set_notifying_state_change_callback example_characteristic None
       (fresh_world 1) = None.
Proof.
  repeat split; reflexivity.
Qed.

Ltac solve_invokes :=
  unfold invokes; run_m; do 2 eexists; (split; [reflexivity|]); trace_facts.

(** ** Start of notifications *)

(** C2: when the characteristic can notify or indicate,
    [binc_characteristic_start_notify] returns, and what it did is, in this
    order: the log line, the subscription to [PropertiesChanged], the
    StartNotify call.  The subscription is therefore registered on the
    connection, under the identifier stored in the struct, when the call is
    sent and when the function returns; a signal that arrives from then on is
    scheduled for that subscription, and when it is the only subscription of
    the characteristic the signal is handed to the handler. *)
Theorem start_notify_subscribes_before_call {P : GattChrProp}
    (c : Characteristic) (w : World) :
  binc_characteristic_supports_notify c = true ->
  let id := next_subscription_id (bus w) in
  let c' := with_characteristic_prop_changed c id in
  exists w',
    binc_characteristic_start_notify c w = Some (c', w')
    /\ trace w' =
       (trace w ++
        [ELogDebug TAG "start notify for <%s>" [LogStr (uuid c)];
         ESignalSubscribe id BLUEZ_DBUS "org.freedesktop.DBus.Properties"
           "PropertiesChanged" (path c) INTERFACE_CHARACTERISTIC;
         EDBusCall BLUEZ_DBUS (path c) INTERFACE_CHARACTERISTIC
           CHARACTERISTIC_METHOD_START_NOTIFY None None])%list
    /\ subscriptions (bus w') = (subscriptions (bus w) ++ [id])%list
    /\ pending_calls (bus w') =
       (pending_calls (bus w) ++
        [mkPendingCall CHARACTERISTIC_METHOD_START_NOTIFY None char_start_notify_cb])%list
    /\ is_subscribed (characteristic_prop_changed c') w' = true
    /\ (subscriptions (bus w) = [] ->
        forall parameters,
          g_dbus_signal_arrives parameters c' w' =
          binc_internal_signal_characteristic_changed parameters c' w').
Proof.
  intros Hcap id c'. unfold binc_characteristic_start_notify.
  rewrite Hcap. run_m. eexists. split; [reflexivity|]. cbn.
  split; [rewrite <- !app_assoc; reflexivity|].
  split; [reflexivity|]. split; [reflexivity|]. split.
  - unfold is_subscribed. cbn. rewrite existsb_app. cbn.
    rewrite Z.eqb_refl. apply orb_true_iff. right. reflexivity.
  - intros Hnone parameters. rewrite Hnone.
    unfold g_dbus_signal_arrives.
    cbn [bus subscriptions app g_dbus_deliver is_subscribed existsb].
    rewrite Z.eqb_refl. cbn [orb]. apply bind_ret_r.
Qed.

(** The statement above on the example characteristic with the flag "notify",
    on a connection without subscriptions. *)
Lemma start_notify_subscribes_before_call_witness :
  binc_characteristic_supports_notify (P := bluetooth_gatt_chr_prop)
    example_notify_characteristic = true
  /\ exists w',
       binc_characteristic_start_notify (P := bluetooth_gatt_chr_prop)
         example_notify_characteristic (fresh_world 1)
       = Some (with_characteristic_prop_changed example_notify_characteristic 1, w')
       /\ trace w' =
          [ELogDebug TAG "start notify for <%s>" [LogStr None];
           ESignalSubscribe 1 BLUEZ_DBUS "org.freedesktop.DBus.Properties"
             "PropertiesChanged" example_path INTERFACE_CHARACTERISTIC;
           EDBusCall BLUEZ_DBUS example_path INTERFACE_CHARACTERISTIC
             CHARACTERISTIC_METHOD_START_NOTIFY None None]
       /\ subscriptions (bus w') = [1]
       /\ pending_calls (bus w') =
          [mkPendingCall CHARACTERISTIC_METHOD_START_NOTIFY None char_start_notify_cb]
       /\ is_subscribed 1 w' = true
       /\ (@nil Z = [] ->
           forall parameters,
             g_dbus_signal_arrives parameters
               (with_characteristic_prop_changed example_notify_characteristic 1) w' =
             binc_internal_signal_characteristic_changed parameters
               (with_characteristic_prop_changed example_notify_characteristic 1) w').
Proof.
  split.
  - reflexivity.
  - exact (start_notify_subscribes_before_call (P := bluetooth_gatt_chr_prop)
             example_notify_characteristic (fresh_world 1) eq_refl).
Defined.

(** ** The capability bitmask *)

Section BitmaskFacts.

Context {P : GattChrProp}.
Hypothesis bits : gatt_chr_prop_are_bits.

Lemma flag_bit_range (token : string) : 0 <= flag_bit token < guint_modulus.
Proof.
  destruct bits as [Hrange _]. unfold gatt_chr_prop_values in Hrange.
  repeat rewrite Forall_cons_iff in Hrange.
  unfold flag_bit.
  repeat match goal with
         | |- context [g_str_equal ?a ?b] => destruct (g_str_equal a b)
         end;
    try tauto.
  unfold guint_modulus. lia.
Qed.

Lemma flag_bit_disjoint (t1 t2 : string) :
  t1 <> t2 -> Z.land (flag_bit t1) (flag_bit t2) = 0.
Proof.
  intros Hneq. destruct bits as [_ Hdisj].
  unfold gatt_chr_prop_values in Hdisj. cbn [pairwise_disjoint] in Hdisj.
  repeat rewrite Forall_cons_iff in Hdisj.
  decompose [and] Hdisj. clear Hdisj.
  unfold flag_bit, g_str_equal.
  repeat match goal with
         | |- context [String.eqb ?a ?b] => destruct (String.eqb_spec a b)
         end;
    try assumption;
    try (rewrite Z.land_comm; assumption);
    try apply Z.land_0_l; try apply Z.land_0_r;
    (exfalso; apply Hneq; etransitivity; [eassumption|symmetry; assumption]).
Qed.

Lemma guint_lor_range (a b : Z) :
  0 <= a < guint_modulus -> 0 <= b < guint_modulus ->
  0 <= Z.lor a b < guint_modulus.
Proof.
  unfold guint_modulus. intros Ha Hb.
  assert (Hnn : 0 <= Z.lor a b) by (apply Z.lor_nonneg; lia).
  split; [exact Hnn|].
  destruct (Z.eq_dec (Z.lor a b) 0) as [E|E]; [rewrite E; lia|].
  apply Z.log2_lt_pow2; [lia|].
  rewrite Z.log2_lor by lia.
  apply Z.max_lub_lt.
  - destruct (Z.eq_dec a 0) as [->|]; [cbn; lia|]. apply Z.log2_lt_pow2; lia.
  - destruct (Z.eq_dec b 0) as [->|]; [cbn; lia|]. apply Z.log2_lt_pow2; lia.
Qed.

Lemma guint_add_disjoint (a b : Z) :
  0 <= a < guint_modulus -> 0 <= b < guint_modulus -> Z.land a b = 0 ->
  guint_add a b = Z.lor a b.
Proof.
  intros Ha Hb Hdisj. unfold guint_add.
  rewrite (Z.add_nocarry_lxor a b Hdisj), (Z.lxor_lor a b Hdisj).
  apply Z.mod_small. apply guint_lor_range; assumption.
Qed.

Lemma properties_of_flags_range (flag_set : list string) :
  0 <= properties_of_flags flag_set < guint_modulus.
Proof.
  induction flag_set as [|t rest IH]; cbn.
  - unfold guint_modulus. lia.
  - apply guint_lor_range; [apply flag_bit_range|exact IH].
Qed.

(** One turn of the loop adds the bit of the token, or nothing. *)
Lemma flags_to_int_loop_cons (token : string) (rest : list string) (result : Z) :
  0 <= result < guint_modulus ->
  flags_to_int_loop (token :: rest) result =
  flags_to_int_loop rest (guint_add result (flag_bit token)).
Proof.
  intros Hr. cbn [flags_to_int_loop]. f_equal. unfold flag_bit.
  repeat match goal with
         | |- context [g_str_equal ?a ?b] => destruct (g_str_equal a b)
         end;
    try reflexivity.
  unfold guint_add. rewrite Z.add_0_r. symmetry. apply Z.mod_small. exact Hr.
Qed.

Lemma distinct_strings_head (x : string) (rest : list string) :
  distinct_strings (x :: rest) = true ->
  (forall t, In t rest -> x <> t) /\ distinct_strings rest = true.
Proof.
  cbn. intros H. apply andb_true_iff in H. destruct H as [Hx Hrest].
  split; [|exact Hrest].
  intros t Hin ->. apply negb_true_iff in Hx.
  assert (Hex : existsb (String.eqb t) rest = true).
  { apply existsb_exists. exists t. split; [exact Hin|apply String.eqb_refl]. }
  congruence.
Qed.

Lemma flags_to_int_loop_or (flag_list : list string) :
  forall result,
    0 <= result < guint_modulus ->
    distinct_strings flag_list = true ->
    (forall t, In t flag_list -> Z.land result (flag_bit t) = 0) ->
    flags_to_int_loop flag_list result = Z.lor result (properties_of_flags flag_list).
Proof.
  induction flag_list as [|t rest IH]; intros result Hr Hd Hfresh.
  - cbn. rewrite Z.lor_0_r. reflexivity.
  - apply distinct_strings_head in Hd. destruct Hd as [Hneq Hd].
    rewrite flags_to_int_loop_cons by exact Hr.
    rewrite guint_add_disjoint;
      [|exact Hr|apply flag_bit_range|apply Hfresh; left; reflexivity].
    rewrite IH.
    + cbn [properties_of_flags fold_right]. rewrite Z.lor_assoc. reflexivity.
    + apply guint_lor_range; [exact Hr|apply flag_bit_range].
    + exact Hd.
    + intros t' Hin. rewrite Z.land_lor_distr_l.
      rewrite (Hfresh t') by (right; exact Hin).
      rewrite flag_bit_disjoint by (apply Hneq; exact Hin).
      reflexivity.
Qed.

Lemma flags_to_int_is_or (flag_list : list string) :
  distinct_strings flag_list = true ->
  binc_characteristic_flags_to_int flag_list = properties_of_flags flag_list.
Proof.
  intros Hd. unfold binc_characteristic_flags_to_int.
  destruct flag_list as [|t rest]; [reflexivity|].
  cbn [List.length Nat.ltb Nat.leb].
  rewrite flags_to_int_loop_or.
  - apply Z.lor_0_l.
  - unfold guint_modulus. lia.
  - exact Hd.
  - intros t' _. apply Z.land_0_l.
Qed.

End BitmaskFacts.

Lemma properties_of_flags_permutation {P : GattChrProp} (f1 f2 : list string) :
  Permutation f1 f2 -> properties_of_flags f1 = properties_of_flags f2.
Proof.
  unfold properties_of_flags.
  induction 1 as [|t l1 l2 _ IH|t1 t2 l|l1 l2 l3 _ IH1 _ IH2]; cbn [fold_right].
  - reflexivity.
  - rewrite IH. reflexivity.
  - rewrite !Z.lor_assoc. rewrite (Z.lor_comm (flag_bit t1)). reflexivity.
  - congruence.
Qed.

Lemma distinct_strings_NoDup (l : list string) :
  distinct_strings l = true <-> NoDup l.
Proof.
  induction l as [|x rest IH]; cbn.
  - split; [constructor|reflexivity].
  - rewrite andb_true_iff, negb_true_iff, IH. split.
    + intros [Hx Hrest]. constructor; [|exact Hrest].
      intros Hin.
      assert (Hex : existsb (String.eqb x) rest = true).
      { apply existsb_exists. exists x. split; [exact Hin|apply String.eqb_refl]. }
      congruence.
    + intros Hnd. inversion Hnd as [|? ? Hnotin Hrest]; subst. split; [|exact Hrest].
      destruct (existsb (String.eqb x) rest) eqn:E; [|reflexivity].
      apply existsb_exists in E. destruct E as [y [Hin Heq]].
      apply String.eqb_eq in Heq. subst. contradiction.
Qed.

(** ** What a step leaves alone *)

(** One turn of the signal handler's loop, case by case. *)
Lemma characteristic_changed_property_cases (property_name : string)
    (property_value : GVariant) (c : Characteristic) (w : World) :
  characteristic_changed_property property_name property_value c w =
  if g_str_equal property_name CHARACTERISTIC_PROPERTY_NOTIFYING then
    let b := g_variant_get_boolean property_value in
    Some (if b then with_notifying c true
          else with_characteristic_prop_changed (with_notifying c false) 0,
          mkWorld
            (if b || (characteristic_prop_changed c =? 0) then bus w
             else mkGDBusConnection (next_subscription_id (bus w))
                    (remove Z.eq_dec (characteristic_prop_changed c)
                       (subscriptions (bus w)))
                    (pending_calls (bus w)))
            (trace w
             ++ [ELogDebug TAG "notifying %s <%s>"
                   [LogStr (Some (if b then "true" else "false")); LogStr (uuid c)]]
             ++ match notify_state_callback c with
                | Some callback => [EOnNotifyingStateChanged callback b None]
                | None => []
                end
             ++ if b || (characteristic_prop_changed c =? 0) then []
                else [ESignalUnsubscribe (characteristic_prop_changed c)]))
  else if g_str_equal property_name CHARACTERISTIC_PROPERTY_VALUE then
    match property_value with
    | GVByteArray data =>
        Some (c,
              mkWorld (bus w)
                (trace w
                 ++ [ELogDebug TAG "notification <%s> on <%s>"
                       [LogHex data; LogStr (uuid c)]]
                 ++ match on_notify_callback c with
                    | Some callback => [EOnNotify callback data]
                    | None => []
                    end))
    | _ => None
    end
  else Some (c, w).
Proof.
  unfold characteristic_changed_property.
  destruct (g_str_equal property_name CHARACTERISTIC_PROPERTY_NOTIFYING).
  - cbv zeta. destruct (g_variant_get_boolean property_value).
    + run_m. destruct (notify_state_callback c); run_m;
        rewrite <- ?app_assoc; cbn [app]; rewrite ?app_nil_r; reflexivity.
    + destruct (Z.eqb_spec (characteristic_prop_changed c) 0) as [E|E].
      * replace (with_characteristic_prop_changed (with_notifying c false) 0)
          with (with_notifying c false)
          by (destruct c; cbn in *; subst; reflexivity).
        run_m. apply Z.eqb_eq in E. rewrite E.
        destruct (notify_state_callback c); run_m;
          rewrite <- ?app_assoc; cbn [app]; rewrite ?app_nil_r; reflexivity.
      * run_m. apply Z.eqb_neq in E. rewrite E.
        destruct (notify_state_callback c); run_m;
          rewrite <- ?app_assoc; cbn [app]; reflexivity.
  - destruct (g_str_equal property_name CHARACTERISTIC_PROPERTY_VALUE);
      [|reflexivity].
    destruct property_value; try reflexivity.
    run_m. destruct (on_notify_callback c); run_m;
      rewrite <- ?app_assoc; cbn [app]; rewrite ?app_nil_r; reflexivity.
Qed.

(** A property other than [Notifying] changes neither the struct nor the
    connection. *)
Lemma characteristic_changed_property_other (property_name : string)
    (property_value : GVariant) (c c' : Characteristic) (w w' : World) :
  g_str_equal property_name CHARACTERISTIC_PROPERTY_NOTIFYING = false ->
  characteristic_changed_property property_name property_value c w = Some (c', w') ->
  c' = c /\ bus w' = bus w.
Proof.
  intros Hname H. rewrite characteristic_changed_property_cases, Hname in H.
  destruct (g_str_equal property_name CHARACTERISTIC_PROPERTY_VALUE).
  - destruct property_value; try discriminate H.
    injection H as <- <-. split; reflexivity.
  - injection H as <- <-. split; reflexivity.
Qed.

Lemma characteristic_changed_property_capabilities (property_name : string)
    (property_value : GVariant) (c c' : Characteristic) (w w' : World) :
  characteristic_changed_property property_name property_value c w = Some (c', w') ->
  flags c' = flags c /\ properties c' = properties c.
Proof.
  intros H. rewrite characteristic_changed_property_cases in H.
  destruct (g_str_equal property_name CHARACTERISTIC_PROPERTY_NOTIFYING).
  - cbv zeta in H. injection H as <- _.
    destruct (g_variant_get_boolean property_value); split; reflexivity.
  - destruct (g_str_equal property_name CHARACTERISTIC_PROPERTY_VALUE).
    + destruct property_value; try discriminate H.
      injection H as <- _. split; reflexivity.
    + injection H as <- _. split; reflexivity.
Qed.

Lemma characteristic_changed_loop_capabilities (entries : list (string * GVariant)) :
  forall (c c' : Characteristic) (w w' : World),
    characteristic_changed_loop entries c w = Some (c', w') ->
    flags c' = flags c /\ properties c' = properties c.
Proof.
  induction entries as [|[name value] rest IH]; intros c c' w w' H.
  - injection H as <- _. split; reflexivity.
  - cbn [characteristic_changed_loop] in H. unfold bind in H.
    destruct (characteristic_changed_property name value c w) as [[c1 w1]|] eqn:E;
      [|discriminate H].
    apply characteristic_changed_property_capabilities in E.
    apply IH in H. destruct E, H. split; congruence.
Qed.

(** The handler's assertion leaves one shape of parameters. *)
Lemma signal_handler_cases (parameters : GVariant) (c c' : Characteristic) (w w' : World) :
  binc_internal_signal_characteristic_changed parameters c w = Some (c', w') ->
  exists iface changed unknown,
    parameters = GVTuple [GVString iface; GVDict changed; GVStringArray unknown]
    /\ characteristic_changed_loop changed c w = Some (c', w').
Proof.
  unfold binc_internal_signal_characteristic_changed, bind, g_assert.
  destruct (g_str_equal (g_variant_get_type_string parameters) "(sa{sv}as)");
    [|discriminate].
  destruct parameters as [| | | | | |children]; try discriminate.
  destruct children as [|x [|y [|z [|? ?]]]]; try discriminate;
    destruct x; try discriminate; destruct y; try discriminate;
    destruct z; try discriminate.
  intros H. do 3 eexists. split; [reflexivity|exact H].
Qed.

Lemma signal_handler_capabilities (parameters : GVariant) (c c' : Characteristic)
    (w w' : World) :
  binc_internal_signal_characteristic_changed parameters c w = Some (c', w') ->
  flags c' = flags c /\ properties c' = properties c.
Proof.
  intros H. apply signal_handler_cases in H.
  destruct H as (iface & changed & unknown & _ & H).
  exact (characteristic_changed_loop_capabilities _ _ _ _ _ H).
Qed.

Lemma g_dbus_deliver_capabilities (parameters : GVariant) (scheduled : list Z) :
  forall (c c' : Characteristic) (w w' : World),
    g_dbus_deliver scheduled parameters c w = Some (c', w') ->
    flags c' = flags c /\ properties c' = properties c.
Proof.
  induction scheduled as [|id rest IH]; intros c c' w w' H.
  - injection H as <- _. split; reflexivity.
  - cbn [g_dbus_deliver] in H. destruct (is_subscribed id w).
    + unfold bind in H.
      destruct (binc_internal_signal_characteristic_changed parameters c w)
        as [[c1 w1]|] eqn:E; [|discriminate H].
      apply signal_handler_capabilities in E. apply IH in H.
      destruct E, H. split; congruence.
    + exact (IH _ _ _ _ H).
Qed.

(** Completion handlers leave the connection as it is. *)
Lemma run_ready_callback_bus (callback : ReadyCallback) (res : GAsyncResult)
    (c : Characteristic) (w w' : World) (u : unit) :
  run_ready_callback callback res c w = Some (u, w') -> bus w' = bus w.
Proof.
  destruct callback, res as [value|e]; cbn [run_ready_callback];
    unfold binc_internal_char_read_cb, binc_internal_char_write_cb,
      binc_internal_char_start_notify_cb, binc_internal_char_stop_notify_cb;
    cbn [g_dbus_connection_call_finish].
  1: { unfold bind at 1. unfold bind at 1.
       unfold g_assert at 1.
       destruct (g_str_equal (g_variant_get_type_string value) "(ay)") eqn:Hty;
         [|discriminate].
       destruct (type_string_ay_tuple value Hty) as [data ->].
       run_m. destruct (on_read_callback c); run_m;
         intros H; injection H as _ <-; reflexivity. }
  all: run_m;
    try destruct (on_read_callback c); try destruct (on_write_callback c);
    try destruct (notify_state_callback c); run_m;
    intros H; injection H as _ <-; reflexivity.
Qed.

Ltac break_step H :=
  repeat (progress (unfold_m; cbn in H));
  repeat match type of H with
         | context [match ?x with _ => _ end] =>
             lazymatch x with
             | context [match _ with _ => _ end] => fail
             | _ => destruct x eqn:?; cbn in H; try discriminate H
             end
         end;
  try (injection H as <- <-).

Lemma g_dbus_reply_arrives_frame (index : nat) (reply : Reply) (c : Characteristic)
    (w w' : World) (u : unit) :
  g_dbus_reply_arrives index reply c w = Some (u, w') ->
  subscriptions (bus w') = subscriptions (bus w)
  /\ next_subscription_id (bus w') = next_subscription_id (bus w).
Proof.
  unfold g_dbus_reply_arrives.
  destruct (nth_error (pending_calls (bus w)) index) as [call|].
  - intros H. apply run_ready_callback_bus in H. rewrite H. split; reflexivity.
  - intros H. injection H as _ <-. split; reflexivity.
Qed.

Section StepFrames.

Context {P : GattChrProp}.

(** Only [binc_characteristic_set_flags] and
    [binc_characteristic_set_properties] assign [flags] or [properties]. *)
Lemma step_capabilities (a : Action) (c c' : Characteristic) (w w' : World) :
  match a with
  | ASetFlags _ | ASetProperties _ => False
  | _ => True
  end ->
  step a c w = Some (c', w') ->
  flags c' = flags c /\ properties c' = properties c.
Proof.
  intros Ha H. destruct a; try contradiction; cbn [step] in H.
  1-7, 9-11: unfold binc_characteristic_set_read_callback,
      binc_characteristic_set_write_callback, binc_characteristic_set_notify_callback,
      binc_characteristic_set_notifying_state_change_callback,
      binc_characteristic_set_uuid, binc_characteristic_set_service_uuid,
      binc_characteristic_set_service_path, binc_characteristic_read,
      binc_characteristic_write, binc_characteristic_start_notify,
      binc_characteristic_stop_notify in H;
    break_step H; split; reflexivity.
  - unfold binc_characteristic_read in H. break_step H. split; reflexivity.
  - unfold bind in H.
    destruct (g_dbus_reply_arrives index reply c w) as [[u w1]|]; [|discriminate H].
    injection H as <- _. split; reflexivity.
  - exact (g_dbus_deliver_capabilities _ _ _ _ _ _ H).
Qed.

(** Only [binc_characteristic_start_notify] and the delivery of a signal
    touch the subscription, the handle or [notifying]. *)
Lemma step_subscription_state (a : Action) (c c' : Characteristic) (w w' : World) :
  match a with
  | AStartNotify | ASignal _ => False
  | _ => True
  end ->
  step a c w = Some (c', w') ->
  characteristic_prop_changed c' = characteristic_prop_changed c
  /\ notifying c' = notifying c
  /\ subscriptions (bus w') = subscriptions (bus w)
  /\ next_subscription_id (bus w') = next_subscription_id (bus w).
Proof.
  intros Ha H. destruct a; try contradiction; cbn [step] in H.
  1-12: unfold binc_characteristic_set_read_callback,
      binc_characteristic_set_write_callback, binc_characteristic_set_notify_callback,
      binc_characteristic_set_notifying_state_change_callback,
      binc_characteristic_set_uuid, binc_characteristic_set_service_uuid,
      binc_characteristic_set_service_path, binc_characteristic_set_flags,
      binc_characteristic_set_properties, binc_characteristic_read,
      binc_characteristic_write, binc_characteristic_stop_notify in H;
    break_step H; repeat split; reflexivity.
  unfold bind in H.
  destruct (g_dbus_reply_arrives index reply c w) as [[u w1]|] eqn:E; [|discriminate H].
  injection H as <- <-. apply g_dbus_reply_arrives_frame in E.
  destruct E. repeat split; assumption.
Qed.

End StepFrames.

(** ** The bitmask follows the flags *)

(** What [binc_characteristic_set_flags] stores when it returns. *)
Lemma set_flags_stores {P : GattChrProp} (c c' : Characteristic) (w w' : World)
    (flag_list : list string) :
  binc_characteristic_set_flags c flag_list w = Some (c', w') ->
  flags c' = flag_list
  /\ properties c' = binc_characteristic_flags_to_int flag_list.
Proof.
  intros H. unfold binc_characteristic_set_flags in H.
  destruct flag_list as [|token rest]; [discriminate H|].
  unfold_m. destruct (flags c); injection H as <- _; split; reflexivity.
Qed.

Lemma run_flags_only {P : GattChrProp} (bits : gatt_chr_prop_are_bits)
    (actions : list Action) :
  forall (c c' : Characteristic) (w w' : World),
    forallb flags_only_action actions = true ->
    properties c = properties_of_flags (flags c) ->
    run actions c w = Some (c', w') ->
    properties c' = properties_of_flags (flags c').
Proof.
  induction actions as [|a rest IH]; intros c c' w w' Hd Hinv H.
  - injection H as <- _. exact Hinv.
  - cbn [forallb] in Hd. apply andb_true_iff in Hd. destruct Hd as [Ha Hd].
    cbn [run] in H. unfold bind in H.
    destruct (step a c w) as [[c1 w1]|] eqn:E; [|discriminate H].
    apply (IH c1 c' w1 w' Hd); [|exact H].
    destruct a as [cb|cb|cb|cb|v|v|v|flag_list|v| |data wt| | |index reply|parameters];
      try (destruct (fun Ha' => step_capabilities _ c c1 w w1 Ha' E) with (1 := I)
             as [Hf Hp];
           rewrite Hf, Hp; exact Hinv).
    + cbn [step] in E. cbn [flags_only_action] in Ha.
      apply set_flags_stores in E. destruct E as [-> ->].
      apply flags_to_int_is_or; assumption.
    + discriminate Ha.
Qed.

(** C3 as stated fails: [binc_characteristic_set_properties] stores any
    bitmask and leaves the flags alone, so after it the bitmask need not be
    the OR of the bits of the flags.  Here the flags say "read" and the
    bitmask says write. *)
Lemma set_properties_detaches_bitmask_from_flags :
  exists c w,
    run (P := bluetooth_gatt_chr_prop) [ASetFlags ["read"]; ASetProperties 8]
      example_characteristic (fresh_world 1) = Some (c, w)
    /\ flags c = ["read"]
    /\ properties c = 8
    /\ properties_of_flags (P := bluetooth_gatt_chr_prop) (flags c) = 2
    /\ properties c <> properties_of_flags (P := bluetooth_gatt_chr_prop) (flags c).
Proof.
  do 2 eexists. split; [reflexivity|]. cbn. repeat split; discriminate.
Qed.

(** The loop adds; it does not OR.  A token that occurs twice is counted
    twice, which is why the statements below are about lists without
    repetition. *)
Example flags_to_int_repeated_token :
  binc_characteristic_flags_to_int (P := bluetooth_gatt_chr_prop) ["read"; "read"] = 4.
Proof. reflexivity. Qed.

(** C3, amended: provided the seven macros are distinct bit values of a
    [guint], (1) [binc_characteristic_set_flags] with a non-empty list without
    repeated tokens stores the list and recomputes the bitmask as the OR of
    the bits of its tokens, whatever the bitmask was before; (2) in every
    state reached from creation by calls and deliveries that assign the
    bitmask only in this way, [properties] is the OR of the bits of the tokens
    of [flags]; (3) that OR does not depend on the order of the tokens; (4) a
    token outside the table has no bit and is skipped by the loop.
    [binc_characteristic_set_properties] overwrites the bitmask with its
    argument and keeps the flags, so the equality is not an invariant of
    every state. *)
Theorem properties_follow_flags {P : GattChrProp} :
  gatt_chr_prop_are_bits ->
  (forall (c : Characteristic) (w : World) (token : string) (rest : list string),
      NoDup (token :: rest) ->
      exists c' w',
        binc_characteristic_set_flags c (token :: rest) w = Some (c', w')
        /\ flags c' = token :: rest
        /\ properties c' = properties_of_flags (token :: rest))
  /\ (forall (dev : Device) (object_path : option string) (first_id : Z)
        (actions : list Action) (c : Characteristic) (w : World),
        forallb flags_only_action actions = true ->
        run actions (binc_characteristic_create dev object_path) (fresh_world first_id)
          = Some (c, w) ->
        properties c = properties_of_flags (flags c))
  /\ (forall f1 f2 : list string,
        Permutation f1 f2 -> properties_of_flags f1 = properties_of_flags f2)
  /\ (forall (token : string),
        ~ In token recognized_tokens ->
        flag_bit token = 0
        /\ forall (rest : list string) (result : Z),
             flags_to_int_loop (token :: rest) result = flags_to_int_loop rest result)
  /\ (forall (c : Characteristic) (value : Z) (w : World),
        binc_characteristic_set_properties c value w = Some (with_properties c value, w)).
Proof.
  intros bits. repeat match goal with |- _ /\ _ => split end.
  - intros c w token rest Hnd.
    destruct (binc_characteristic_set_flags c (token :: rest) w) as [[c' w']|] eqn:E.
    + exists c', w'. split; [reflexivity|].
      apply set_flags_stores in E. destruct E as [Hf ->].
      split; [exact Hf|].
      apply flags_to_int_is_or; [exact bits|].
      apply distinct_strings_NoDup. exact Hnd.
    + unfold binc_characteristic_set_flags in E. unfold_m.
      destruct (flags c); discriminate E.
  - intros dev object_path first_id actions c w Hd H.
    apply (run_flags_only bits actions _ _ _ _ Hd) in H; [exact H|reflexivity].
  - exact properties_of_flags_permutation.
  - intros token Hnot.
    assert (Hall : forallb (fun t => negb (g_str_equal token t)) recognized_tokens = true).
    { apply forallb_forall. intros t Hin. apply negb_true_iff.
      apply String.eqb_neq. intros ->. contradiction. }
    cbn [forallb recognized_tokens] in Hall.
    repeat (apply andb_true_iff in Hall; let H := fresh "H" in destruct Hall as [H Hall];
            apply negb_true_iff in H).
    split.
    + unfold flag_bit. rewrite H, H0, H1, H2, H3, H4, H5. reflexivity.
    + intros rest result. cbn [flags_to_int_loop].
      rewrite H, H0, H1, H2, H3, H4, H5. reflexivity.
  - reflexivity.
Qed.

Lemma bluetooth_gatt_chr_prop_are_bits :
  gatt_chr_prop_are_bits (P := bluetooth_gatt_chr_prop).
Proof.
  split.
  - unfold gatt_chr_prop_values, guint_modulus. cbn.
    repeat constructor; cbn; try discriminate; reflexivity.
  - unfold gatt_chr_prop_values. cbn. repeat constructor.
Defined.

(** The statement above for the Bluetooth bit values: the flags "notify",
    "vendor-flag", "read" give the bitmask 18 in either order. *)
Lemma properties_follow_flags_witness :
  gatt_chr_prop_are_bits (P := bluetooth_gatt_chr_prop)
  /\ (let c := with_properties
                 (with_flags example_characteristic ["notify"; "vendor-flag"; "read"]) 18 in
      properties c = properties_of_flags (P := bluetooth_gatt_chr_prop) (flags c))
  /\ properties_of_flags (P := bluetooth_gatt_chr_prop) ["notify"; "vendor-flag"; "read"]
     = properties_of_flags (P := bluetooth_gatt_chr_prop) ["read"; "notify"; "vendor-flag"].
Proof.
  split; [exact bluetooth_gatt_chr_prop_are_bits|]. split.
  - apply (proj1 (proj2 (properties_follow_flags (P := bluetooth_gatt_chr_prop)
                           bluetooth_gatt_chr_prop_are_bits)))
      with (dev := example_device) (object_path := example_path) (first_id := 1)
           (actions := [ASetFlags ["notify"; "vendor-flag"; "read"]])
           (w := fresh_world 1);
      reflexivity.
  - apply (proj1 (proj2 (proj2 (properties_follow_flags (P := bluetooth_gatt_chr_prop)
                                  bluetooth_gatt_chr_prop_are_bits)))).
    apply Permutation_sym.
    apply (Permutation_cons_append ["notify"; "vendor-flag"] "read").
Defined.

(** ** The subscription invariant *)

(** Once the subscription is gone, the rest of a dictionary without a
    [Notifying] entry changes nothing. *)
Lemma characteristic_changed_loop_other (entries : list (string * GVariant)) :
  forall (c c' : Characteristic) (w w' : World),
    (forall name, In name (map fst entries) ->
                  g_str_equal name CHARACTERISTIC_PROPERTY_NOTIFYING = false) ->
    characteristic_changed_loop entries c w = Some (c', w') ->
    c' = c /\ bus w' = bus w.
Proof.
  induction entries as [|[name value] rest IH]; intros c c' w w' Hkeys H.
  - injection H as <- <-. split; reflexivity.
  - cbn [characteristic_changed_loop] in H. unfold bind in H.
    destruct (characteristic_changed_property name value c w) as [[c1 w1]|] eqn:E;
      [|discriminate H].
    apply characteristic_changed_property_other in E;
      [|apply Hkeys; left; reflexivity].
    destruct E as [-> Hbus].
    apply IH in H; [|intros k Hin; apply Hkeys; right; exact Hin].
    destruct H as [-> Hbus']. split; congruence.
Qed.

Lemma remove_only_subscription (id : Z) : remove Z.eq_dec id [id] = [].
Proof.
  cbn. destruct (Z.eq_dec id id); [reflexivity|contradiction].
Qed.

(** The handler's loop, entered while the characteristic holds the only
    subscription, on a dictionary with distinct keys. *)
Lemma characteristic_changed_loop_invariant (entries : list (string * GVariant)) :
  forall (c c' : Characteristic) (w w' : World),
    distinct_strings (map fst entries) = true ->
    0 < characteristic_prop_changed c < next_subscription_id (bus w) ->
    subscriptions (bus w) = [characteristic_prop_changed c] ->
    characteristic_changed_loop entries c w = Some (c', w') ->
    subscription_invariant c' w'.
Proof.
  induction entries as [|[name value] rest IH]; intros c c' w w' Hd Hid Hsub H.
  - injection H as <- <-. split; [lia|]. right. split; assumption.
  - cbn [map fst] in Hd. apply distinct_strings_head in Hd.
    destruct Hd as [Hneq Hd].
    cbn [characteristic_changed_loop] in H. unfold bind in H.
    destruct (characteristic_changed_property name value c w) as [[c1 w1]|] eqn:E;
      [|discriminate H].
    destruct (g_str_equal name CHARACTERISTIC_PROPERTY_NOTIFYING) eqn:Hname.
    + rewrite characteristic_changed_property_cases, Hname in E. cbv zeta in E.
      assert (Hnz : (characteristic_prop_changed c =? 0) = false)
        by (apply Z.eqb_neq; lia).
      rewrite Hnz, orb_false_r in E.
      destruct (g_variant_get_boolean value).
      * injection E as <- <-.
        apply (IH _ _ _ _ Hd) in H; [exact H|exact Hid|exact Hsub].
      * injection E as <- <-.
        apply characteristic_changed_loop_other in H.
        -- destruct H as [-> Hbus]. unfold subscription_invariant. rewrite Hbus.
           cbn. rewrite Hsub, remove_only_subscription.
           split; [lia|]. left. repeat split; reflexivity.
        -- intros k Hin. apply String.eqb_neq. intros ->.
           apply String.eqb_eq in Hname. apply (Hneq _ Hin). exact Hname.
    + apply characteristic_changed_property_other in E; [|exact Hname].
      destruct E as [-> Hbus].
      apply (IH _ _ _ _ Hd) in H; [exact H|rewrite Hbus; exact Hid|rewrite Hbus; exact Hsub].
Qed.

Lemma g_dbus_signal_arrives_invariant (parameters : GVariant)
    (c c' : Characteristic) (w w' : World) :
  dict_keys_distinct parameters = true ->
  subscription_invariant c w ->
  g_dbus_signal_arrives parameters c w = Some (c', w') ->
  subscription_invariant c' w'.
Proof.
  intros Hd [Hnext [(Hzero & Hsub & Hnot)|(Hid & Hsub)]] H;
    unfold g_dbus_signal_arrives in H; rewrite Hsub in H.
  - injection H as <- <-. split; [exact Hnext|]. left. repeat split; assumption.
  - cbn [g_dbus_deliver] in H. unfold is_subscribed in H. rewrite Hsub in H.
    cbn [existsb] in H. rewrite Z.eqb_refl in H. cbn [orb] in H.
    rewrite bind_ret_r in H.
    destruct (signal_handler_cases _ _ _ _ _ H) as (iface & changed & unknown & -> & Hloop).
    cbn [dict_keys_distinct] in Hd.
    exact (characteristic_changed_loop_invariant _ _ _ _ _ Hd Hid Hsub Hloop).
Qed.

Lemma start_notify_invariant {P : GattChrProp} (c c' : Characteristic) (w w' : World) :
  characteristic_prop_changed c = 0 ->
  subscription_invariant c w ->
  binc_characteristic_start_notify c w = Some (c', w') ->
  subscription_invariant c' w'.
Proof.
  intros Hzero [Hnext [(_ & Hsub & _)|(Hid & _)]] H; [|lia].
  unfold binc_characteristic_start_notify in H. break_step H.
  unfold subscription_invariant. cbn. rewrite Hsub. cbn.
  split; [lia|]. right. split; [lia|reflexivity].
Qed.

Lemma run_single_subscription {P : GattChrProp} (actions : list Action) :
  forall (c c' : Characteristic) (w w' : World),
    single_subscription actions c w = true ->
    subscription_invariant c w ->
    run actions c w = Some (c', w') ->
    subscription_invariant c' w'.
Proof.
  induction actions as [|a rest IH]; intros c c' w w' Hd Hinv H.
  - injection H as <- <-. exact Hinv.
  - cbn [single_subscription] in Hd. apply andb_true_iff in Hd.
    destruct Hd as [Ha Hd].
    cbn [run] in H. unfold bind in H.
    destruct (step a c w) as [[c1 w1]|] eqn:E; [|discriminate H].
    apply (IH c1 c' w1 w' Hd); [|exact H].
    destruct a as [cb|cb|cb|cb|v|v|v|flag_list|v| |data wt| | |index reply|parameters];
      try (destruct (fun Ha' => step_subscription_state _ c c1 w w1 Ha' E) with (1 := I)
             as (Hh & Hn & Hs & Hx);
           unfold subscription_invariant; rewrite Hh, Hn, Hs, Hx; exact Hinv).
    + cbn [step] in E. cbn [single_subscription_action] in Ha.
      apply Z.eqb_eq in Ha. exact (start_notify_invariant _ _ _ _ Ha Hinv E).
    + cbn [step] in E. cbn [single_subscription_action] in Ha.
      exact (g_dbus_signal_arrives_invariant _ _ _ _ _ Ha Hinv E).
Qed.

Lemma create_subscription_invariant (dev : Device) (object_path : option string)
    (first_id : Z) :
  0 < first_id ->
  subscription_invariant (binc_characteristic_create dev object_path) (fresh_world first_id).
Proof.
  intros Hpos. split; [exact Hpos|]. left. repeat split; reflexivity.
Qed.

(** C1 as stated fails, in two ways.  A second
    [binc_characteristic_start_notify], made after the first call has
    completed, overwrites the handle of the first subscription, which stays
    registered on the connection: when [Notifying = false] is reported the
    handler releases the second subscription and clears the handle, and a
    later [Notifying = true] still reaches the handler through the first
    subscription and sets [notifying] while the struct holds no handle.  And
    after a single start, one signal whose dictionary holds [Notifying] twice,
    false and then true, makes the handler release the subscription and then
    set [notifying]. *)
Lemma notifying_without_handle :
  (exists c w,
      run (P := bluetooth_gatt_chr_prop) example_restarted_run
        example_characteristic (fresh_world 1) = Some (c, w)
      /\ notifying c = true
      /\ characteristic_prop_changed c = 0)
  /\ (exists c w,
         run (P := bluetooth_gatt_chr_prop) example_repeated_key_run
           example_characteristic (fresh_world 1) = Some (c, w)
         /\ notifying c = true
         /\ characteristic_prop_changed c = 0).
Proof.
  split; do 2 eexists; (split; [reflexivity|]); split; reflexivity.
Qed.

(** ** A signal that reports [Notifying = false] *)

Lemma characteristic_changed_property_other_count (property_name : string)
    (property_value : GVariant) (c c' : Characteristic) (w w' : World) :
  g_str_equal property_name CHARACTERISTIC_PROPERTY_NOTIFYING = false ->
  characteristic_changed_property property_name property_value c w = Some (c', w') ->
  unsubscribe_count (trace w') = unsubscribe_count (trace w).
Proof.
  intros Hname H. rewrite characteristic_changed_property_cases, Hname in H.
  destruct (g_str_equal property_name CHARACTERISTIC_PROPERTY_VALUE).
  - destruct property_value; try discriminate H.
    injection H as _ <-. destruct (on_notify_callback c); trace_facts.
  - injection H as _ <-. reflexivity.
Qed.

Lemma characteristic_changed_loop_other_count (entries : list (string * GVariant)) :
  forall (c c' : Characteristic) (w w' : World),
    (forall name, In name (map fst entries) ->
                  g_str_equal name CHARACTERISTIC_PROPERTY_NOTIFYING = false) ->
    characteristic_changed_loop entries c w = Some (c', w') ->
    unsubscribe_count (trace w') = unsubscribe_count (trace w).
Proof.
  induction entries as [|[name value] rest IH]; intros c c' w w' Hkeys H.
  - injection H as _ <-. reflexivity.
  - cbn [characteristic_changed_loop] in H. unfold bind in H.
    destruct (characteristic_changed_property name value c w) as [[c1 w1]|] eqn:E;
      [|discriminate H].
    apply characteristic_changed_property_other_count in E;
      [|apply Hkeys; left; reflexivity].
    apply IH in H; [|intros k Hin; apply Hkeys; right; exact Hin].
    congruence.
Qed.

(** On a dictionary with distinct keys that reports [Notifying = false], the
    handler's loop, when it returns, has cleared [notifying] and the handle
    and has called unsubscribe once if a handle was held. *)
Lemma characteristic_changed_loop_releases (entries : list (string * GVariant)) :
  forall (c c' : Characteristic) (w w' : World),
    distinct_strings (map fst entries) = true ->
    existsb (fun entry =>
               g_str_equal (fst entry) CHARACTERISTIC_PROPERTY_NOTIFYING
               && negb (g_variant_get_boolean (snd entry)))
      entries = true ->
    characteristic_changed_loop entries c w = Some (c', w') ->
    c' = with_characteristic_prop_changed (with_notifying c false) 0
    /\ bus w' =
       (if characteristic_prop_changed c =? 0 then bus w
        else mkGDBusConnection (next_subscription_id (bus w))
               (remove Z.eq_dec (characteristic_prop_changed c) (subscriptions (bus w)))
               (pending_calls (bus w)))
    /\ unsubscribe_count (trace w') =
       (unsubscribe_count (trace w)
        + (if (characteristic_prop_changed c =? 0)%Z then 0 else 1))%nat.
Proof.
  induction entries as [|[name value] rest IH]; intros c c' w w' Hd Hrep H.
  - discriminate Hrep.
  - cbn [map fst] in Hd. apply distinct_strings_head in Hd.
    destruct Hd as [Hneq Hd].
    cbn [existsb fst snd] in Hrep.
    cbn [characteristic_changed_loop] in H. unfold bind in H.
    destruct (characteristic_changed_property name value c w) as [[c1 w1]|] eqn:E;
      [|discriminate H].
    destruct (g_str_equal name CHARACTERISTIC_PROPERTY_NOTIFYING) eqn:Hname.
    + assert (Hrest : forall k, In k (map fst rest) ->
                                g_str_equal k CHARACTERISTIC_PROPERTY_NOTIFYING = false).
      { intros k Hin. apply String.eqb_neq. intros ->.
        apply String.eqb_eq in Hname. apply (Hneq _ Hin). exact Hname. }
      assert (Hnone : existsb (fun entry =>
                 g_str_equal (fst entry) CHARACTERISTIC_PROPERTY_NOTIFYING
                 && negb (g_variant_get_boolean (snd entry))) rest = false).
      { destruct (existsb _ rest) eqn:Hex; [|reflexivity]. exfalso.
        apply existsb_exists in Hex. destruct Hex as ([k v] & Hin & Hkv).
        apply andb_true_iff in Hkv. destruct Hkv as [Hk _]. cbn [fst] in Hk.
        rewrite (Hrest k) in Hk; [discriminate Hk|].
        apply in_map_iff. exists (k, v). split; [reflexivity|exact Hin]. }
      rewrite Hnone, orb_false_r in Hrep. cbn [andb] in Hrep.
      apply negb_true_iff in Hrep.
      rewrite characteristic_changed_property_cases, Hname in E. cbv zeta in E.
      rewrite Hrep in E. cbn [orb] in E. injection E as <- <-.
      pose proof (characteristic_changed_loop_other_count _ _ _ _ _ Hrest H) as Hcount.
      apply (characteristic_changed_loop_other _ _ _ _ _ Hrest) in H.
      destruct H as [-> Hbus]. split; [reflexivity|].
      rewrite Hbus, Hcount. cbn [bus trace].
      split; [reflexivity|].
      destruct (characteristic_prop_changed c =? 0), (notify_state_callback c);
        trace_facts.
    + cbn [andb orb] in Hrep.
      pose proof (characteristic_changed_property_other_count _ _ _ _ _ _ Hname E)
        as Hcount.
      apply characteristic_changed_property_other in E; [|exact Hname].
      destruct E as [-> Hbus].
      apply (IH _ _ _ _ Hd Hrep) in H. destruct H as (Hc & Hb & Hn).
      rewrite Hbus in Hb. rewrite Hcount in Hn. repeat split; assumption.
Qed.

(** The handler returns on every signal of type [(sa{sv}as)] whose [Value]
    entries hold byte arrays. *)
Lemma characteristic_changed_loop_returns (entries : list (string * GVariant)) :
  forall (c : Characteristic) (w : World),
    forallb (fun entry =>
               g_str_equal (fst entry) CHARACTERISTIC_PROPERTY_NOTIFYING
               || negb (g_str_equal (fst entry) CHARACTERISTIC_PROPERTY_VALUE)
               || match snd entry with
                  | GVByteArray _ => true
                  | _ => false
                  end)
      entries = true ->
    exists c' w', characteristic_changed_loop entries c w = Some (c', w').
Proof.
  induction entries as [|[name value] rest IH]; intros c w Hok.
  - exists c, w. reflexivity.
  - cbn [forallb fst snd] in Hok. apply andb_true_iff in Hok.
    destruct Hok as [Hhead Hrest].
    cbn [characteristic_changed_loop]. unfold bind.
    rewrite characteristic_changed_property_cases.
    destruct (g_str_equal name CHARACTERISTIC_PROPERTY_NOTIFYING).
    + cbv zeta. apply IH. exact Hrest.
    + cbn [orb] in Hhead.
      destruct (g_str_equal name CHARACTERISTIC_PROPERTY_VALUE).
      * cbn [negb orb] in Hhead. destruct value; try discriminate Hhead.
        apply IH. exact Hrest.
      * apply IH. exact Hrest.
Qed.

(** C1, amended: take any run from creation in which
    [binc_characteristic_start_notify] is only called while the struct holds
    no handle and every signal carries a dictionary with distinct keys.  In
    the state it reaches, [notifying] true implies that the handle is non-zero
    and registered on the connection.  In that state, take any signal whose
    dictionary has distinct keys and reports [Notifying = false], whatever
    else it reports and in whatever order: when the handler returns on it, it
    has cleared [notifying] and the handle and left no subscription on the
    connection, having called unsubscribe exactly once when a handle was held
    and not at all otherwise; and the handler does return when every [Value]
    entry of the signal holds a byte array.  The run need not contain any
    [binc_characteristic_stop_notify]. *)
Theorem notifying_implies_subscription {P : GattChrProp}
    (dev : Device) (object_path : option string) (first_id : Z)
    (actions : list Action) (c : Characteristic) (w : World) :
  0 < first_id ->
  single_subscription actions (binc_characteristic_create dev object_path)
    (fresh_world first_id) = true ->
  run actions (binc_characteristic_create dev object_path) (fresh_world first_id)
    = Some (c, w) ->
  (notifying c = true ->
   characteristic_prop_changed c <> 0
   /\ is_subscribed (characteristic_prop_changed c) w = true)
  /\ (forall parameters : GVariant,
        dict_keys_distinct parameters = true ->
        reports_notifying_false parameters = true ->
        (forall c' w',
            binc_internal_signal_characteristic_changed parameters c w = Some (c', w') ->
            c' = with_characteristic_prop_changed (with_notifying c false) 0
            /\ subscriptions (bus w') = []
            /\ unsubscribe_count (trace w') =
               (unsubscribe_count (trace w)
                + (if (characteristic_prop_changed c =? 0)%Z then 0 else 1))%nat)
        /\ (value_entries_are_bytes parameters = true ->
            exists c' w',
              binc_internal_signal_characteristic_changed parameters c w
              = Some (c', w'))).
Proof.
  intros Hpos Hd Hrun.
  assert (Hinv : subscription_invariant c w).
  { apply (run_single_subscription actions _ _ _ _ Hd); [|exact Hrun].
    apply create_subscription_invariant. exact Hpos. }
  destruct Hinv as [Hnext Hcases]. split.
  - intros Hn. destruct Hcases as [(_ & _ & Hfalse)|(Hid & Hsub)]; [congruence|].
    split; [lia|]. unfold is_subscribed. rewrite Hsub. cbn.
    rewrite Z.eqb_refl. reflexivity.
  - intros parameters Hkeys Hrep. split.
    + intros c' w' H. apply signal_handler_cases in H.
      destruct H as (iface & changed & unknown & -> & Hloop).
      cbn [dict_keys_distinct] in Hkeys. cbn [reports_notifying_false] in Hrep.
      apply (characteristic_changed_loop_releases _ _ _ _ _ Hkeys Hrep) in Hloop.
      destruct Hloop as (Hc & Hb & Hn). split; [exact Hc|]. split; [|exact Hn].
      rewrite Hb. destruct Hcases as [(Hzero & Hsub & _)|(Hid & Hsub)].
      * rewrite Hzero. cbn. exact Hsub.
      * replace (characteristic_prop_changed c =? 0) with false
          by (symmetry; apply Z.eqb_neq; lia).
        cbn. rewrite Hsub. apply remove_only_subscription.
    + intros Hbytes.
      destruct parameters as [| | | | | |children]; try discriminate Hrep.
      destruct children as [|x [|y [|z [|? ?]]]]; try discriminate Hrep;
        destruct x; try discriminate Hrep; destruct y; try discriminate Hrep;
        destruct z; try discriminate Hrep.
      cbn [value_entries_are_bytes] in Hbytes.
      unfold binc_internal_signal_characteristic_changed, bind, g_assert.
      cbn [g_variant_get_type_string append g_str_equal String.eqb Ascii.eqb Bool.eqb].
      apply characteristic_changed_loop_returns. exact Hbytes.
Qed.

(** The statement above on a run that starts notifications once and gets
    them confirmed, and then on a signal that reports a value and
    [Notifying = false]. *)
Lemma notifying_implies_subscription_witness :
  0 < 1
  /\ single_subscription (P := bluetooth_gatt_chr_prop) example_notifying_run
       example_characteristic (fresh_world 1) = true
  /\ exists c w,
       run (P := bluetooth_gatt_chr_prop) example_notifying_run
         example_characteristic (fresh_world 1) = Some (c, w)
       /\ notifying c = true
       /\ characteristic_prop_changed c <> 0
       /\ is_subscribed (characteristic_prop_changed c) w = true
       /\ exists c' w',
            binc_internal_signal_characteristic_changed value_then_notifying_false c w
            = Some (c', w')
            /\ c' = with_characteristic_prop_changed (with_notifying c false) 0
            /\ subscriptions (bus w') = []
            /\ unsubscribe_count (trace w') = (unsubscribe_count (trace w) + 1)%nat.
Proof.
  split; [reflexivity|]. split; [reflexivity|].
  do 2 eexists. split; [reflexivity|]. split; [reflexivity|].
  pose proof (notifying_implies_subscription (P := bluetooth_gatt_chr_prop)
                example_device example_path 1 example_notifying_run _ _
                eq_refl eq_refl eq_refl) as [Hlive Hrelease].
  split; [apply Hlive; reflexivity|]. split; [apply Hlive; reflexivity|].
  do 2 eexists. split; [reflexivity|].
  exact (proj1 (Hrelease value_then_notifying_false eq_refl eq_refl) _ _ eq_refl).
Defined.

(** ** Stop of notifications *)

(** A dictionary without a [Notifying = false] entry leaves the connection
    as it is. *)
Lemma characteristic_changed_loop_keeps_bus (entries : list (string * GVariant)) :
  forall (c c' : Characteristic) (w w' : World),
    existsb (fun entry =>
               g_str_equal (fst entry) CHARACTERISTIC_PROPERTY_NOTIFYING
               && negb (g_variant_get_boolean (snd entry)))
      entries = false ->
    characteristic_changed_loop entries c w = Some (c', w') ->
    bus w' = bus w.
Proof.
  induction entries as [|[name value] rest IH]; intros c c' w w' Hno H.
  - injection H as _ <-. reflexivity.
  - cbn [existsb fst snd] in Hno. apply orb_false_iff in Hno.
    destruct Hno as [Hhead Hrest].
    cbn [characteristic_changed_loop] in H. unfold bind in H.
    destruct (characteristic_changed_property name value c w) as [[c1 w1]|] eqn:E;
      [|discriminate H].
    apply (IH _ _ _ _ Hrest) in H. rewrite H. clear H.
    destruct (g_str_equal name CHARACTERISTIC_PROPERTY_NOTIFYING) eqn:Hname.
    + cbn [andb] in Hhead. apply negb_false_iff in Hhead.
      rewrite characteristic_changed_property_cases, Hname in E. cbv zeta in E.
      rewrite Hhead in E. cbn [orb] in E. injection E as _ <-. reflexivity.
    + apply characteristic_changed_property_other in E; [|exact Hname].
      apply E.
Qed.

Lemma g_dbus_deliver_keeps_bus (parameters : GVariant) (scheduled : list Z) :
  forall (c c' : Characteristic) (w w' : World),
    reports_notifying_false parameters = false ->
    g_dbus_deliver scheduled parameters c w = Some (c', w') ->
    bus w' = bus w.
Proof.
  induction scheduled as [|id rest IH]; intros c c' w w' Hno H.
  - injection H as _ <-. reflexivity.
  - cbn [g_dbus_deliver] in H. destruct (is_subscribed id w).
    + unfold bind in H.
      destruct (binc_internal_signal_characteristic_changed parameters c w)
        as [[c1 w1]|] eqn:E; [|discriminate H].
      apply (IH _ _ _ _ Hno) in H. rewrite H.
      destruct (signal_handler_cases _ _ _ _ _ E) as (iface & changed & unknown & -> & Hloop).
      exact (characteristic_changed_loop_keeps_bus _ _ _ _ _ Hno Hloop).
    + exact (IH _ _ _ _ Hno H).
Qed.

(** C4: [binc_characteristic_stop_notify] either aborts on its capability
    assertion or only sends the StopNotify call; its completion handler,
    whatever the outcome of the call, only logs and reports an error.
    Neither modifies the struct (both return nothing), removes a subscription
    from the connection or calls unsubscribe.  Among the calls and deliveries
    of a run, a step after which a subscription is gone from the connection is
    the delivery of a signal that reports [Notifying = false]; the handler of
    such a signal calls unsubscribe and clears the handle. *)
Theorem stop_notify_keeps_subscription {P : GattChrProp} (c : Characteristic) (w : World) :
  (binc_characteristic_stop_notify c w =
     if binc_characteristic_supports_notify c then
       Some (tt,
             mkWorld
               (mkGDBusConnection (next_subscription_id (bus w)) (subscriptions (bus w))
                  (pending_calls (bus w) ++
                   [mkPendingCall CHARACTERISTIC_METHOD_STOP_NOTIFY None char_stop_notify_cb]))
               (trace w ++ [EDBusCall BLUEZ_DBUS (path c) INTERFACE_CHARACTERISTIC
                              CHARACTERISTIC_METHOD_STOP_NOTIFY None None]))
     else None)
  /\ (forall res : GAsyncResult,
        exists w',
          binc_internal_char_stop_notify_cb res c w = Some (tt, w')
          /\ bus w' = bus w
          /\ unsubscribe_count (trace w') = unsubscribe_count (trace w))
  /\ (forall (a : Action) (c' : Characteristic) (w' : World) (id : Z),
        step a c w = Some (c', w') ->
        In id (subscriptions (bus w)) ->
        ~ In id (subscriptions (bus w')) ->
        exists parameters,
          a = ASignal parameters /\ reports_notifying_false parameters = true)
  /\ (exists w',
        binc_internal_signal_characteristic_changed (notifying_changed false) c w =
          Some (with_characteristic_prop_changed (with_notifying c false) 0, w')
        /\ subscriptions (bus w') =
           (if characteristic_prop_changed c =? 0 then subscriptions (bus w)
            else remove Z.eq_dec (characteristic_prop_changed c) (subscriptions (bus w)))
        /\ unsubscribe_count (trace w') =
           (unsubscribe_count (trace w)
            + (if (characteristic_prop_changed c =? 0)%Z then 0 else 1))%nat).
Proof.
  split; [|split; [|split]].
  - unfold binc_characteristic_stop_notify, binc_characteristic_supports_notify.
    unfold_m.
    destruct ((0 <? Z.land (properties c) GATT_CHR_PROP_INDICATE)
              || (0 <? Z.land (properties c) GATT_CHR_PROP_NOTIFY)); reflexivity.
  - intros res. unfold binc_internal_char_stop_notify_cb. unfold_m.
    destruct res as [value|e]; cbn.
    + eexists; repeat split; reflexivity.
    + destruct (notify_state_callback c); eexists; (split; [reflexivity|]);
        split; trace_facts.
  - intros a c' w' id Hstep Hin Hout.
    destruct a as [cb|cb|cb|cb|v|v|v|flag_list|v| |data wt| | |index reply|parameters];
      try (destruct (fun Ha' => step_subscription_state _ c c' w w' Ha' Hstep) with (1 := I)
             as (_ & _ & Hs & _);
           rewrite Hs in Hout; contradiction).
    + cbn [step] in Hstep. unfold binc_characteristic_start_notify in Hstep.
      break_step Hstep. exfalso. apply Hout. cbn. apply in_or_app. left. exact Hin.
    + exists parameters. split; [reflexivity|].
      destruct (reports_notifying_false parameters) eqn:Hrep; [reflexivity|].
      cbn [step] in Hstep. unfold g_dbus_signal_arrives in Hstep.
      apply (g_dbus_deliver_keeps_bus _ _ _ _ _ _ Hrep) in Hstep.
      rewrite Hstep in Hout. contradiction.
  - rewrite notifying_false_handled. eexists. split; [reflexivity|].
    destruct (characteristic_prop_changed c =? 0), (notify_state_callback c);
      split; trace_facts.
Qed.

(** The statement above on a subscribed characteristic: the delivery of
    [Notifying = false] is a step that removes subscription 1. *)
Lemma stop_notify_keeps_subscription_witness :
  exists c w c' w',
    step (P := bluetooth_gatt_chr_prop) (ASignal (notifying_changed false)) c w
      = Some (c', w')
    /\ In 1 (subscriptions (bus w))
    /\ ~ In 1 (subscriptions (bus w'))
    /\ exists parameters,
         ASignal (notifying_changed false) = ASignal parameters
         /\ reports_notifying_false parameters = true.
Proof.
  exists (with_characteristic_prop_changed example_notify_characteristic 1).
  exists (mkWorld (mkGDBusConnection 2 [1] []) []).
  do 2 eexists.
  split; [reflexivity|]. split; [left; reflexivity|]. split; [intros []|].
  apply (proj1 (proj2 (proj2
           (stop_notify_keeps_subscription (P := bluetooth_gatt_chr_prop)
              (with_characteristic_prop_changed example_notify_characteristic 1)
              (mkWorld (mkGDBusConnection 2 [1] []) []))))
         (ASignal (notifying_changed false)) _ _ 1 eq_refl).
  - left. reflexivity.
  - intros [].
Defined.

(** * Further properties of the code *)

(** ** The flag loop as a sum *)

Lemma flags_to_int_loop_sum {P : GattChrProp} (flag_list : list string) :
  forall result,
    0 <= result < guint_modulus ->
    flags_to_int_loop flag_list result = (result + flag_bits_sum flag_list) mod guint_modulus.
Proof.
  induction flag_list as [|t rest IH]; intros result Hr.
  - cbn. rewrite Z.add_0_r. symmetry. apply Z.mod_small. exact Hr.
  - rewrite flags_to_int_loop_cons by exact Hr.
    rewrite IH by (unfold guint_add, guint_modulus; apply Z.mod_pos_bound; lia).
    unfold guint_add, flag_bits_sum. cbn [fold_right].
    rewrite Zplus_mod_idemp_l. f_equal. lia.
Qed.

Lemma flag_bits_sum_permutation {P : GattChrProp} (f1 f2 : list string) :
  Permutation f1 f2 -> flag_bits_sum f1 = flag_bits_sum f2.
Proof.
  unfold flag_bits_sum.
  induction 1 as [|t l1 l2 _ IH|t1 t2 l|l1 l2 l3 _ IH1 _ IH2]; cbn [fold_right];
    lia.
Qed.

(** X1: for every flag list, repeated and unknown tokens included,
    [binc_characteristic_flags_to_int] is the sum of the bits of the tokens,
    each occurrence counted, reduced modulo 2^32.  The result is therefore a
    [guint], it does not depend on the order of the tokens, and appending a
    list adds its sum. *)
Theorem flags_to_int_is_wrapped_sum {P : GattChrProp} (flag_list : list string) :
  binc_characteristic_flags_to_int flag_list = flag_bits_sum flag_list mod guint_modulus
  /\ 0 <= binc_characteristic_flags_to_int flag_list < guint_modulus
  /\ (forall other, Permutation flag_list other ->
        binc_characteristic_flags_to_int other = binc_characteristic_flags_to_int flag_list)
  /\ (forall more,
        binc_characteristic_flags_to_int (flag_list ++ more) =
        guint_add (binc_characteristic_flags_to_int flag_list)
          (binc_characteristic_flags_to_int more)).
Proof.
  assert (Hsum : forall l,
             binc_characteristic_flags_to_int l = flag_bits_sum l mod guint_modulus).
  { intros l. unfold binc_characteristic_flags_to_int.
    destruct l as [|t rest]; [reflexivity|].
    cbn [List.length Nat.ltb Nat.leb].
    rewrite flags_to_int_loop_sum by (unfold guint_modulus; lia).
    reflexivity. }
  split; [apply Hsum|]. split; [|split].
  - rewrite Hsum. unfold guint_modulus. apply Z.mod_pos_bound. lia.
  - intros other Hperm. rewrite !Hsum.
    rewrite (flag_bits_sum_permutation _ _ Hperm). reflexivity.
  - intros more. rewrite !Hsum. unfold guint_add.
    rewrite <- Zplus_mod. f_equal.
    unfold flag_bits_sum. rewrite fold_right_app.
    induction flag_list as [|t rest IH]; cbn [fold_right]; lia.
Qed.

(** ** Capability queries against the flags *)

Lemma land_properties_of_flags {P : GattChrProp} (bits : gatt_chr_prop_are_bits)
    (token : string) (flag_list : list string) :
  Z.land (properties_of_flags flag_list) (flag_bit token) =
  if existsb (String.eqb token) flag_list then flag_bit token else 0.
Proof.
  induction flag_list as [|t rest IH]; cbn [properties_of_flags fold_right existsb].
  - apply Z.land_0_l.
  - fold (properties_of_flags rest). rewrite Z.land_lor_distr_l, IH.
    destruct (String.eqb_spec token t) as [->|Hneq]; cbn [orb].
    + rewrite Z.land_diag.
      destruct (existsb (String.eqb t) rest);
        [apply Z.lor_diag|apply Z.lor_0_r].
    + rewrite (flag_bit_disjoint bits t token) by congruence.
      apply Z.lor_0_l.
Qed.

Lemma existsb_eqb_In (token : string) (l : list string) :
  existsb (String.eqb token) l = true <-> In token l.
Proof.
  rewrite existsb_exists. split.
  - intros (x & Hin & Heq). apply String.eqb_eq in Heq. subst. exact Hin.
  - intros Hin. exists token. split; [exact Hin|apply String.eqb_refl].
Qed.

Lemma supports_bit_iff {P : GattChrProp} (bits : gatt_chr_prop_are_bits)
    (token : string) (flag_list : list string) :
  0 < flag_bit token ->
  (0 <? Z.land (properties_of_flags flag_list) (flag_bit token)) = true
  <-> In token flag_list.
Proof.
  intros Hpos. rewrite land_properties_of_flags by exact bits.
  rewrite <- existsb_eqb_In.
  destruct (existsb (String.eqb token) flag_list).
  - split; [reflexivity|]. intros _. apply Z.ltb_lt. exact Hpos.
  - split; [|discriminate]. cbn. discriminate.
Qed.

(** X2: once [binc_characteristic_set_flags] has stored a flag list without
    repeated tokens, the capability queries answer by the tokens: read iff
    "read" is listed, write with response iff "write", write without response
    iff "write-without-response", notify iff "notify" or "indicate"; provided
    the seven macros are non-zero, pairwise disjoint [guint] values. *)
Theorem capabilities_follow_flags {P : GattChrProp}
    (c c' : Characteristic) (w w' : World) (flag_list : list string) :
  gatt_chr_prop_are_bits ->
  gatt_chr_prop_nonzero ->
  NoDup flag_list ->
  binc_characteristic_set_flags c flag_list w = Some (c', w') ->
  (binc_characteristic_supports_read c' = true <-> In "read" flag_list)
  /\ (binc_characteristic_supports_write c' WITH_RESPONSE = true <-> In "write" flag_list)
  /\ (binc_characteristic_supports_write c' WITHOUT_RESPONSE = true
      <-> In "write-without-response" flag_list)
  /\ (binc_characteristic_supports_notify c' = true
      <-> In "notify" flag_list \/ In "indicate" flag_list).
Proof.
  intros bits Hnz Hnd H.
  apply set_flags_stores in H. destruct H as [_ Hp].
  rewrite (flags_to_int_is_or bits) in Hp by (apply distinct_strings_NoDup; exact Hnd).
  unfold gatt_chr_prop_nonzero, gatt_chr_prop_values in Hnz.
  repeat rewrite Forall_cons_iff in Hnz.
  destruct Hnz as (Hb & Hr & Hwwr & Hw & Hn & Hi & Ha & _).
  unfold binc_characteristic_supports_read, binc_characteristic_supports_write,
    binc_characteristic_supports_notify.
  cbn [WriteType_eqb]. rewrite Hp.
  repeat split.
  - apply (supports_bit_iff bits "read"). exact Hr.
  - apply (supports_bit_iff bits "read"). exact Hr.
  - apply (supports_bit_iff bits "write"). exact Hw.
  - apply (supports_bit_iff bits "write"). exact Hw.
  - apply (supports_bit_iff bits "write-without-response"). exact Hwwr.
  - apply (supports_bit_iff bits "write-without-response"). exact Hwwr.
  - intros Hor. apply orb_true_iff in Hor. destruct Hor as [Hx|Hx].
    + right. apply (supports_bit_iff bits "indicate" flag_list Hi). exact Hx.
    + left. apply (supports_bit_iff bits "notify" flag_list Hn). exact Hx.
  - intros [Hx|Hx]; apply orb_true_iff.
    + right. apply (supports_bit_iff bits "notify" flag_list Hn). exact Hx.
    + left. apply (supports_bit_iff bits "indicate" flag_list Hi). exact Hx.
Qed.

Lemma bluetooth_gatt_chr_prop_nonzero :
  gatt_chr_prop_nonzero (P := bluetooth_gatt_chr_prop).
Proof.
  unfold gatt_chr_prop_nonzero, gatt_chr_prop_values. cbn.
  repeat constructor.
Defined.

(** The statement above for the flags "read" and "notify" with the Bluetooth
    bit values. *)
Lemma capabilities_follow_flags_witness :
  gatt_chr_prop_are_bits (P := bluetooth_gatt_chr_prop)
  /\ gatt_chr_prop_nonzero (P := bluetooth_gatt_chr_prop)
  /\ NoDup ["read"; "notify"]
  /\ binc_characteristic_set_flags (P := bluetooth_gatt_chr_prop) example_characteristic
       ["read"; "notify"] (fresh_world 1)
     = Some (with_properties (with_flags example_characteristic ["read"; "notify"]) 18,
             fresh_world 1)
  /\ (binc_characteristic_supports_read (P := bluetooth_gatt_chr_prop)
        (with_properties (with_flags example_characteristic ["read"; "notify"]) 18) = true
      <-> In "read" ["read"; "notify"])
  /\ (binc_characteristic_supports_write (P := bluetooth_gatt_chr_prop)
        (with_properties (with_flags example_characteristic ["read"; "notify"]) 18)
        WITH_RESPONSE = true
      <-> In "write" ["read"; "notify"])
  /\ (binc_characteristic_supports_write (P := bluetooth_gatt_chr_prop)
        (with_properties (with_flags example_characteristic ["read"; "notify"]) 18)
        WITHOUT_RESPONSE = true
      <-> In "write-without-response" ["read"; "notify"])
  /\ (binc_characteristic_supports_notify (P := bluetooth_gatt_chr_prop)
        (with_properties (with_flags example_characteristic ["read"; "notify"]) 18) = true
      <-> In "notify" ["read"; "notify"] \/ In "indicate" ["read"; "notify"]).
Proof.
  split; [exact bluetooth_gatt_chr_prop_are_bits|].
  split; [exact bluetooth_gatt_chr_prop_nonzero|].
  assert (Hnd : NoDup ["read"; "notify"])
    by (apply distinct_strings_NoDup; reflexivity).
  split; [exact Hnd|]. split; [reflexivity|].
  exact (capabilities_follow_flags (P := bluetooth_gatt_chr_prop)
           example_characteristic _ (fresh_world 1) _ ["read"; "notify"]
           bluetooth_gatt_chr_prop_are_bits bluetooth_gatt_chr_prop_nonzero Hnd eq_refl).
Defined.

(** ** The debug representation *)

Lemma string_append_assoc (a b c : string) :
  ((a ++ b) ++ c)%string = (a ++ (b ++ c))%string.
Proof.
  induction a as [|ch a IH]; cbn; [reflexivity|]. rewrite IH. reflexivity.
Qed.

Lemma string_length_append (a b : string) :
  String.length (a ++ b) = (String.length a + String.length b)%nat.
Proof.
  induction a as [|ch a IH]; cbn; [reflexivity|]. rewrite IH. reflexivity.
Qed.

Lemma substring_prefix (a b : string) :
  String.substring 0 (String.length a) (a ++ b) = a.
Proof.
  induction a as [|ch a IH]; cbn.
  - destruct b; reflexivity.
  - rewrite IH. reflexivity.
Qed.

(** The loop leaves a separator after every token, the last one included. *)
Lemma flags_string_loop_joined (token : string) (rest : list string) :
  forall flags_str,
    flags_string_loop (token :: rest) flags_str =
    (flags_str ++ String.concat ", " (token :: rest) ++ ", ")%string.
Proof.
  revert token. induction rest as [|t rest IH]; intros token flags_str.
  - reflexivity.
  - change (flags_string_loop (token :: t :: rest) flags_str)
      with (flags_string_loop (t :: rest) (flags_str ++ token ++ ", ")%string).
    rewrite IH.
    change (String.concat ", " (token :: t :: rest))
      with (token ++ ", " ++ String.concat ", " (t :: rest))%string.
    rewrite !string_append_assoc. reflexivity.
Qed.

(** X3: in the debug representation the flags are written between brackets,
    separated by a comma and a space, with no separator after the last one,
    and an empty flag list is written as two brackets. *)
Theorem to_string_joins_flags (c : Characteristic) :
  characteristic_flags_string c = ("[" ++ String.concat ", " (flags c) ++ "]")%string
  /\ binc_characteristic_to_string c =
     ("Characteristic{uuid='" ++ printf_s (uuid c)
      ++ "', flags='[" ++ String.concat ", " (flags c) ++ "]"
      ++ "', properties=" ++ printf_d (properties c)
      ++ ", service_uuid='" ++ printf_s (service_uuid c) ++ "'}")%string.
Proof.
  assert (Hflags : characteristic_flags_string c
                   = ("[" ++ String.concat ", " (flags c) ++ "]")%string).
  { unfold characteristic_flags_string. destruct (flags c) as [|token rest].
    - reflexivity.
    - cbn [List.length Nat.ltb Nat.leb]. cbv zeta.
      rewrite flags_string_loop_joined. unfold g_string_truncate.
      rewrite <- string_append_assoc, string_length_append.
      change (String.length ", ") with 2%nat. rewrite Nat.add_sub.
      rewrite substring_prefix. apply string_append_assoc. }
  split; [exact Hflags|].
  unfold binc_characteristic_to_string. rewrite Hflags.
  cbn [append]. rewrite !string_append_assoc. reflexivity.
Qed.

(** ** Writing *)

Lemma byte_array_builder_appends (data : list byte) :
  forall builder1, byte_array_builder data builder1 = builder1 ++ data.
Proof.
  induction data as [|b rest IH]; intros builder1; cbn.
  - symmetry. apply app_nil_r.
  - rewrite IH, <- app_assoc. reflexivity.
Qed.

(** X4: [binc_characteristic_write] aborts, before anything is logged or
    sent, when the byte array is NULL or the characteristic lacks the
    capability that the write type asks for.  Otherwise it returns after one
    log line and one WriteValue call with no reply type: the payload is the
    byte sequence in the same order and length, the offset is 0, and the type
    is "request" with response and "command" without.  The struct is not
    modified and no subscription changes. *)
Theorem write_sends_payload_unchanged {P : GattChrProp}
    (c : Characteristic) (byteArray : option (list byte)) (writeType : WriteType)
    (w : World) :
  binc_characteristic_write c byteArray writeType w =
  match byteArray with
  | None => None
  | Some data =>
      if binc_characteristic_supports_write c writeType then
        Some (tt,
              mkWorld
                (mkGDBusConnection (next_subscription_id (bus w)) (subscriptions (bus w))
                   (pending_calls (bus w) ++
                    [mkPendingCall CHARACTERISTIC_METHOD_WRITE_VALUE None char_write_cb]))
                (trace w ++
                 [ELogDebug TAG "writing <%s> to <%s>" [LogHex data; LogStr (uuid c)];
                  EDBusCall BLUEZ_DBUS (path c) INTERFACE_CHARACTERISTIC
                    CHARACTERISTIC_METHOD_WRITE_VALUE
                    (Some (GVTuple
                             [GVByteArray data;
                              GVDict [("offset", GVUint16 0);
                                      ("type",
                                       GVString match writeType with
                                                | WITH_RESPONSE => "request"
                                                | WITHOUT_RESPONSE => "command"
                                                end)]]))
                    None]))
      else None
  end.
Proof.
  destruct byteArray as [data|]; [|reflexivity].
  unfold binc_characteristic_write. unfold_m.
  destruct (binc_characteristic_supports_write c writeType); [|reflexivity].
  cbn. rewrite byte_array_builder_appends, <- app_assoc. cbn [app].
  destruct writeType; reflexivity.
Qed.

(** X5: the payload codec round trip.  The value that
    [binc_characteristic_write] builds from a byte sequence is of type "ay";
    [g_variant_get_byte_array] gives the same bytes back; returned as the
    reply of a ReadValue call it reaches the read callback as these bytes with
    no error, and reported as the changed [Value] it reaches the notify
    callback as these bytes.  The empty sequence is no exception. *)
Theorem payload_round_trip (data : list byte) (c : Characteristic) (w : World)
    (read_callback : OnReadCallback) (notify_callback : OnNotifyCallback) :
  let value := GVByteArray (byte_array_builder data []) in
  g_variant_get_type_string value = "ay"
  /\ g_variant_get_byte_array (Some value) w = Some (data, w)
  /\ invokes
       (binc_internal_char_read_cb
          (g_dbus_async_result (Some "(ay)") (ReplyValue (GVTuple [value])))
          (with_on_read_callback c (Some read_callback)))
       w [EOnRead read_callback (Some data) None]
  /\ invokes
       (binc_internal_signal_characteristic_changed
          (GVTuple [GVString INTERFACE_CHARACTERISTIC;
                    GVDict [(CHARACTERISTIC_PROPERTY_VALUE, value)];
                    GVStringArray []])
          (with_on_notify_callback c (Some notify_callback)))
       w [EOnNotify notify_callback data].
Proof.
  cbv zeta. rewrite byte_array_builder_appends. cbn [app].
  split; [reflexivity|]. split; [reflexivity|].
  split;
    unfold binc_internal_char_read_cb, binc_internal_signal_characteristic_changed;
    solve_invokes.
Qed.

(** X6: the completion of a WriteValue call.  Whatever the outcome, the
    handler returns and leaves the connection as it is; the write callback,
    when one is registered, is invoked exactly once, with no error after a
    success and with the error of the transport after a failure, and a
    failure is logged after the callback returned.  Without a registered
    callback a success leaves no trace at all. *)
Theorem write_completion_reports_once (res : GAsyncResult) (c : Characteristic) (w : World) :
  binc_internal_char_write_cb res c w =
  Some (tt,
        match res, on_write_callback c with
        | AsyncValue _, None => w
        | AsyncValue _, Some callback =>
            mkWorld (bus w) (trace w ++ [EOnWrite callback None])
        | AsyncError e, callback =>
            mkWorld (bus w)
              (trace w
               ++ match callback with
                  | Some callback => [EOnWrite callback (Some e)]
                  | None => []
                  end
               ++ [ELogDebug TAG "failed to call '%s' (error %d: %s)"
                     [LogStr (Some CHARACTERISTIC_METHOD_WRITE_VALUE);
                      LogInt (error_code e); LogStr (Some (error_message e))]])
        end).
Proof.
  unfold binc_internal_char_write_cb.
  destruct res as [value|e], (on_write_callback c) as [callback|]; run_m;
    rewrite <- ?app_assoc; reflexivity.
Qed.

(** ** What the signal handler touches *)

Lemma characteristic_eta (c : Characteristic) :
  with_characteristic_prop_changed (with_notifying c (notifying c))
    (characteristic_prop_changed c) = c.
Proof. destruct c; reflexivity. Qed.

Lemma characteristic_changed_property_frame (property_name : string)
    (property_value : GVariant) (c c1 : Characteristic) (w w1 : World) :
  characteristic_changed_property property_name property_value c w = Some (c1, w1) ->
  (exists n h,
      c1 = with_characteristic_prop_changed (with_notifying c n) h
      /\ (h = characteristic_prop_changed c \/ h = 0))
  /\ next_subscription_id (bus w1) = next_subscription_id (bus w)
  /\ pending_calls (bus w1) = pending_calls (bus w)
  /\ (subscriptions (bus w1) = subscriptions (bus w)
      \/ (characteristic_prop_changed c <> 0
          /\ subscriptions (bus w1) =
             remove Z.eq_dec (characteristic_prop_changed c) (subscriptions (bus w)))).
Proof.
  intros H. rewrite characteristic_changed_property_cases in H.
  assert (Hsame : (exists n h,
                      c = with_characteristic_prop_changed (with_notifying c n) h
                      /\ (h = characteristic_prop_changed c \/ h = 0))).
  { exists (notifying c), (characteristic_prop_changed c).
    split; [symmetry; apply characteristic_eta|left; reflexivity]. }
  destruct (g_str_equal property_name CHARACTERISTIC_PROPERTY_NOTIFYING).
  - cbv zeta in H. destruct (g_variant_get_boolean property_value).
    + injection H as <- <-. cbn. repeat split; try (left; reflexivity).
      exists true, (characteristic_prop_changed c).
      split; [destruct c; reflexivity|left; reflexivity].
    + cbn [orb] in H.
      destruct (Z.eqb_spec (characteristic_prop_changed c) 0) as [E|E];
        injection H as <- <-; cbn.
      * repeat split; try (left; reflexivity).
        exists false, 0. split; [reflexivity|right; reflexivity].
      * repeat split.
        -- exists false, 0. split; [reflexivity|right; reflexivity].
        -- right. split; [exact E|reflexivity].
  - destruct (g_str_equal property_name CHARACTERISTIC_PROPERTY_VALUE).
    + destruct property_value; try discriminate H.
      injection H as <- <-. cbn. repeat split; try (left; reflexivity). exact Hsame.
    + injection H as <- <-. repeat split; try (left; reflexivity). exact Hsame.
Qed.

Lemma characteristic_changed_loop_frame (entries : list (string * GVariant)) :
  forall (c c' : Characteristic) (w w' : World) (held : Z),
    characteristic_prop_changed c = held \/ characteristic_prop_changed c = 0 ->
    characteristic_changed_loop entries c w = Some (c', w') ->
    (exists n h,
        c' = with_characteristic_prop_changed (with_notifying c n) h
        /\ (h = held \/ h = 0))
    /\ next_subscription_id (bus w') = next_subscription_id (bus w)
    /\ pending_calls (bus w') = pending_calls (bus w)
    /\ (forall id, id <> held -> In id (subscriptions (bus w)) ->
                   In id (subscriptions (bus w')))
    /\ (forall id, In id (subscriptions (bus w')) -> In id (subscriptions (bus w))).
Proof.
  induction entries as [|[name value] rest IH]; intros c c' w w' held Hheld H.
  - injection H as <- <-. repeat split; try (intros; assumption).
    exists (notifying c), (characteristic_prop_changed c).
    split; [symmetry; apply characteristic_eta|exact Hheld].
  - cbn [characteristic_changed_loop] in H. unfold bind in H.
    destruct (characteristic_changed_property name value c w) as [[c1 w1]|] eqn:E;
      [|discriminate H].
    apply characteristic_changed_property_frame in E.
    destruct E as ((n1 & h1 & -> & Hh1) & Hnext1 & Hpend1 & Hsubs1).
    assert (Hheld1 : h1 = held \/ h1 = 0) by (destruct Hh1, Hheld; subst; auto).
    apply (IH _ _ _ _ held) in H; [|exact Hheld1].
    destruct H as ((n2 & h2 & -> & Hh2) & Hnext2 & Hpend2 & Hkeep & Hsub).
    split; [exists n2, h2; split; [reflexivity|exact Hh2]|].
    split; [congruence|]. split; [congruence|]. split.
    + intros id Hid Hin. apply Hkeep; [exact Hid|].
      destruct Hsubs1 as [->|[Hnz ->]]; [exact Hin|].
      apply in_in_remove; [|exact Hin].
      destruct Hheld as [Hc|Hc]; [rewrite Hc; exact Hid|contradiction].
    + intros id Hin. apply Hsub in Hin.
      destruct Hsubs1 as [Heq|[_ Heq]]; rewrite Heq in Hin; [exact Hin|].
      apply in_remove in Hin. apply Hin.
Qed.

(** X7: whatever signal it is given, when the handler returns it has changed
    at most two fields of the struct, [notifying] and the handle, and the
    handle is either the one held before or zero.  On the connection it has
    sent no call, and the only subscription it can have removed is the one
    whose handle the struct held: every other subscription is still
    registered and none was added. *)
Theorem signal_handler_frame (parameters : GVariant) (c c' : Characteristic)
    (w w' : World) :
  binc_internal_signal_characteristic_changed parameters c w = Some (c', w') ->
  (exists n h,
      c' = with_characteristic_prop_changed (with_notifying c n) h
      /\ (h = characteristic_prop_changed c \/ h = 0))
  /\ next_subscription_id (bus w') = next_subscription_id (bus w)
  /\ pending_calls (bus w') = pending_calls (bus w)
  /\ (forall id, id <> characteristic_prop_changed c ->
                 In id (subscriptions (bus w)) -> In id (subscriptions (bus w')))
  /\ (forall id, In id (subscriptions (bus w')) -> In id (subscriptions (bus w))).
Proof.
  intros H. apply signal_handler_cases in H.
  destruct H as (iface & changed & unknown & _ & H).
  apply (characteristic_changed_loop_frame _ _ _ _ _ (characteristic_prop_changed c)) in H;
    [exact H|left; reflexivity].
Qed.

(** The statement above for [Notifying = false] on a characteristic that
    holds subscription 2 while subscription 1 is registered too. *)
Lemma signal_handler_frame_witness :
  exists c w c' w',
    binc_internal_signal_characteristic_changed (notifying_changed false) c w = Some (c', w')
    /\ subscriptions (bus w) = [1; 2]
    /\ characteristic_prop_changed c = 2
    /\ subscriptions (bus w') = [1]
    /\ (forall id, id <> characteristic_prop_changed c ->
                   In id (subscriptions (bus w)) -> In id (subscriptions (bus w'))).
Proof.
  exists (with_characteristic_prop_changed example_notify_characteristic 2).
  exists (mkWorld (mkGDBusConnection 3 [1; 2] []) []).
  do 2 eexists. split; [reflexivity|]. repeat (split; [reflexivity|]).
  apply (signal_handler_frame (notifying_changed false)
           (with_characteristic_prop_changed example_notify_characteristic 2) _
           (mkWorld (mkGDBusConnection 3 [1; 2] []) []) _ eq_refl).
Defined.

(** ** A repeated start of notifications *)

Lemma characteristic_free_keeps_others (c : Characteristic) (w w' : World) (id : Z) :
  binc_characteristic_free c w = Some (tt, w') ->
  characteristic_prop_changed c = 0 \/ id <> characteristic_prop_changed c ->
  In id (subscriptions (bus w)) ->
  In id (subscriptions (bus w')).
Proof.
  intros H Hid Hin. rewrite characteristic_free_result in H. injection H as <-.
  cbn [bus].
  destruct (Z.eqb_spec (characteristic_prop_changed c) 0) as [E|E]; [exact Hin|].
  cbn [subscriptions]. apply in_in_remove; [|exact Hin].
  destruct Hid as [Hz|Hne]; [contradiction|exact Hne].
Qed.

Lemma start_notify_result {P : GattChrProp} (c : Characteristic) (w : World) :
  binc_characteristic_supports_notify c = true ->
  binc_characteristic_start_notify c w =
  Some (with_characteristic_prop_changed c (next_subscription_id (bus w)),
        mkWorld
          (mkGDBusConnection (next_subscription_id (bus w) + 1)
             (subscriptions (bus w) ++ [next_subscription_id (bus w)])
             (pending_calls (bus w) ++
              [mkPendingCall CHARACTERISTIC_METHOD_START_NOTIFY None char_start_notify_cb]))
          (trace w ++
           [ELogDebug TAG "start notify for <%s>" [LogStr (uuid c)];
            ESignalSubscribe (next_subscription_id (bus w)) BLUEZ_DBUS
              "org.freedesktop.DBus.Properties" "PropertiesChanged" (path c)
              INTERFACE_CHARACTERISTIC;
            EDBusCall BLUEZ_DBUS (path c) INTERFACE_CHARACTERISTIC
              CHARACTERISTIC_METHOD_START_NOTIFY None None])).
Proof.
  intros Hcap. unfold binc_characteristic_start_notify. rewrite Hcap.
  run_m. rewrite <- !app_assoc. reflexivity.
Qed.

(** X8: [binc_characteristic_start_notify] does not look at the handle it
    overwrites.  Called twice on a characteristic that can notify, it
    registers two subscriptions and keeps the handle of the second; from then
    on neither [binc_characteristic_free] nor the signal handler, whatever
    signal it gets, followed by [binc_characteristic_free], removes the first
    subscription from the connection. *)
Theorem repeated_start_notify_keeps_first_subscription {P : GattChrProp}
    (c : Characteristic) (w : World) :
  binc_characteristic_supports_notify c = true ->
  let id1 := next_subscription_id (bus w) in
  exists c1 w1 c2 w2,
    binc_characteristic_start_notify c w = Some (c1, w1)
    /\ binc_characteristic_start_notify c1 w1 = Some (c2, w2)
    /\ characteristic_prop_changed c1 = id1
    /\ characteristic_prop_changed c2 = id1 + 1
    /\ subscriptions (bus w2) = subscriptions (bus w) ++ [id1; id1 + 1]
    /\ (exists w3,
          binc_characteristic_free c2 w2 = Some (tt, w3)
          /\ In id1 (subscriptions (bus w3)))
    /\ (forall parameters c3 w3 w4,
          binc_internal_signal_characteristic_changed parameters c2 w2 = Some (c3, w3) ->
          binc_characteristic_free c3 w3 = Some (tt, w4) ->
          In id1 (subscriptions (bus w3)) /\ In id1 (subscriptions (bus w4))).
Proof.
  intros Hcap id1.
  do 4 eexists. split; [apply start_notify_result; exact Hcap|].
  split; [apply start_notify_result; exact Hcap|].
  cbn [characteristic_prop_changed with_characteristic_prop_changed bus
       next_subscription_id subscriptions].
  split; [reflexivity|]. split; [reflexivity|].
  split; [rewrite <- app_assoc; reflexivity|].
  fold id1.
  assert (Hin : In id1 ((subscriptions (bus w) ++ [id1]) ++ [id1 + 1])).
  { apply in_or_app. left. apply in_or_app. right. left. reflexivity. }
  split.
  - rewrite characteristic_free_result. eexists. split; [reflexivity|].
    cbn [bus characteristic_prop_changed with_characteristic_prop_changed
         next_subscription_id subscriptions].
    destruct (id1 + 1 =? 0); [exact Hin|].
    cbn [subscriptions]. apply in_in_remove; [lia|exact Hin].
  - intros parameters c3 w3 w4 Hsig Hfree.
    apply signal_handler_cases in Hsig.
    destruct Hsig as (iface & changed & unknown & _ & Hloop).
    apply (characteristic_changed_loop_frame _ _ _ _ _ (id1 + 1)) in Hloop;
      [|left; reflexivity].
    destruct Hloop as ((n & h & -> & Hh) & _ & _ & Hkeep & _).
    cbn [bus subscriptions] in Hkeep.
    assert (Hin3 : In id1 (subscriptions (bus w3))) by (apply Hkeep; [lia|exact Hin]).
    split; [exact Hin3|].
    apply (characteristic_free_keeps_others _ _ _ id1 Hfree); [|exact Hin3].
    cbn [characteristic_prop_changed with_characteristic_prop_changed].
    destruct Hh as [->| ->]; [right; lia|left; reflexivity].
Qed.

(** The statement above on the example characteristic with the flag "notify",
    on a connection without subscriptions: subscription 1 stays. *)
Lemma repeated_start_notify_keeps_first_subscription_witness :
  binc_characteristic_supports_notify (P := bluetooth_gatt_chr_prop)
    example_notify_characteristic = true
  /\ exists c1 w1 c2 w2,
       binc_characteristic_start_notify (P := bluetooth_gatt_chr_prop)
         example_notify_characteristic (fresh_world 1) = Some (c1, w1)
       /\ binc_characteristic_start_notify (P := bluetooth_gatt_chr_prop) c1 w1
          = Some (c2, w2)
       /\ characteristic_prop_changed c1 = 1
       /\ characteristic_prop_changed c2 = 1 + 1
       /\ subscriptions (bus w2) = [] ++ [1; 1 + 1]
       /\ (exists w3,
             binc_characteristic_free c2 w2 = Some (tt, w3)
             /\ In 1 (subscriptions (bus w3)))
       /\ (forall parameters c3 w3 w4,
             binc_internal_signal_characteristic_changed parameters c2 w2 = Some (c3, w3) ->
             binc_characteristic_free c3 w3 = Some (tt, w4) ->
             In 1 (subscriptions (bus w3)) /\ In 1 (subscriptions (bus w4))).
Proof.
  split; [reflexivity|].
  exact (repeated_start_notify_keeps_first_subscription (P := bluetooth_gatt_chr_prop)
           example_notify_characteristic (fresh_world 1) eq_refl).
Defined.

(** ** Unknown and malformed properties *)

Lemma characteristic_changed_loop_app (pre post : list (string * GVariant))
    (c : Characteristic) (w : World) :
  characteristic_changed_loop (pre ++ post) c w =
  (c1 <- characteristic_changed_loop pre c ;; characteristic_changed_loop post c1) w.
Proof.
  revert c w. induction pre as [|[name value] rest IH]; intros c w.
  - reflexivity.
  - cbn [app characteristic_changed_loop]. unfold bind.
    destruct (characteristic_changed_property name value c w) as [[c1 w1]|];
      [|reflexivity].
    rewrite IH. reflexivity.
Qed.

(** X9: a signal whose changed properties are all other than [Notifying]
    and [Value] is ignored: the handler returns with the struct, the
    connection and the trace exactly as they were, however many such
    properties the signal carries and whatever their values. *)
Theorem unknown_properties_are_ignored (iface : string)
    (changed : list (string * GVariant)) (unknown : list string)
    (c : Characteristic) (w : World) :
  forallb (fun entry => negb (known_property (fst entry))) changed = true ->
  binc_internal_signal_characteristic_changed
    (GVTuple [GVString iface; GVDict changed; GVStringArray unknown]) c w
  = Some (c, w).
Proof.
  intros Hunknown.
  unfold binc_internal_signal_characteristic_changed, bind, g_assert.
  cbn [g_variant_get_type_string append g_str_equal String.eqb Ascii.eqb Bool.eqb].
  induction changed as [|[name value] rest IH]; [reflexivity|].
  cbn [forallb fst] in Hunknown. apply andb_true_iff in Hunknown.
  destruct Hunknown as [Hname Hrest].
  apply negb_true_iff in Hname. unfold known_property in Hname.
  apply orb_false_iff in Hname. destruct Hname as [Hn Hv].
  cbn [characteristic_changed_loop]. unfold bind.
  rewrite characteristic_changed_property_cases, Hn, Hv.
  exact (IH Hrest).
Qed.

(** The statement above on a signal that reports two properties the handler
    does not know. *)
Lemma unknown_properties_are_ignored_witness :
  forallb (fun entry => negb (known_property (fst entry)))
    [("MTU", GVUint16 247); ("WriteAcquired", GVBoolean false)] = true
  /\ binc_internal_signal_characteristic_changed
       (GVTuple [GVString INTERFACE_CHARACTERISTIC;
                 GVDict [("MTU", GVUint16 247); ("WriteAcquired", GVBoolean false)];
                 GVStringArray []])
       example_notify_characteristic (fresh_world 1)
     = Some (example_notify_characteristic, fresh_world 1).
Proof.
  split; [reflexivity|].
  exact (unknown_properties_are_ignored INTERFACE_CHARACTERISTIC
           [("MTU", GVUint16 247); ("WriteAcquired", GVBoolean false)] []
           example_notify_characteristic (fresh_world 1) eq_refl).
Defined.

(** X10: a [Value] entry that is not a byte array stops everything: the
    assertion in [g_variant_get_byte_array] fails and the handler aborts,
    whatever entries come before it in the dictionary and whatever entries
    come after it, which are never processed. *)
Theorem malformed_value_aborts_handler (iface : string)
    (before after : list (string * GVariant)) (value : GVariant)
    (unknown : list string) (c : Characteristic) (w : World) :
  g_str_equal (g_variant_get_type_string value) "ay" = false ->
  binc_internal_signal_characteristic_changed
    (GVTuple [GVString iface;
              GVDict (before ++ (CHARACTERISTIC_PROPERTY_VALUE, value) :: after);
              GVStringArray unknown]) c w
  = None.
Proof.
  intros Hty.
  unfold binc_internal_signal_characteristic_changed, bind, g_assert.
  cbn [g_variant_get_type_string append g_str_equal String.eqb Ascii.eqb Bool.eqb].
  rewrite characteristic_changed_loop_app. unfold bind.
  destruct (characteristic_changed_loop before c w) as [[c1 w1]|]; [|reflexivity].
  cbn [characteristic_changed_loop]. unfold bind.
  assert (Hstep : characteristic_changed_property CHARACTERISTIC_PROPERTY_VALUE
                    value c1 w1 = None).
  { unfold characteristic_changed_property.
    change (g_str_equal CHARACTERISTIC_PROPERTY_VALUE CHARACTERISTIC_PROPERTY_NOTIFYING)
      with false.
    change (g_str_equal CHARACTERISTIC_PROPERTY_VALUE CHARACTERISTIC_PROPERTY_VALUE)
      with true.
    cbv iota. unfold bind at 1. unfold g_variant_get_byte_array, bind, g_assert.
    rewrite Hty. reflexivity. }
  rewrite Hstep. reflexivity.
Qed.

(** The statement above on a signal that reports [Notifying] and then a
    [Value] holding a string. *)
Lemma malformed_value_aborts_handler_witness :
  g_str_equal (g_variant_get_type_string (GVString "0x2a")) "ay" = false
  /\ binc_internal_signal_characteristic_changed
       (GVTuple [GVString INTERFACE_CHARACTERISTIC;
                 GVDict ([(CHARACTERISTIC_PROPERTY_NOTIFYING, GVBoolean true)]
                         ++ (CHARACTERISTIC_PROPERTY_VALUE, GVString "0x2a") :: []);
                 GVStringArray []])
       example_notify_characteristic (fresh_world 1)
     = None.
Proof.
  split; [reflexivity|].
  exact (malformed_value_aborts_handler INTERFACE_CHARACTERISTIC
           [(CHARACTERISTIC_PROPERTY_NOTIFYING, GVBoolean true)] []
           (GVString "0x2a") [] example_notify_characteristic (fresh_world 1) eq_refl).
Defined.

(** ** What the operations leave alone *)

Lemma g_dbus_deliver_identity (parameters : GVariant) (scheduled : list Z) :
  forall (c c' : Characteristic) (w w' : World),
    g_dbus_deliver scheduled parameters c w = Some (c', w') ->
    identity_and_callbacks c' = identity_and_callbacks c.
Proof.
  induction scheduled as [|id rest IH]; intros c c' w w' H.
  - injection H as <- _. reflexivity.
  - cbn [g_dbus_deliver] in H. destruct (is_subscribed id w).
    + unfold bind in H.
      destruct (binc_internal_signal_characteristic_changed parameters c w)
        as [[c1 w1]|] eqn:E; [|discriminate H].
      apply IH in H. rewrite H.
      apply signal_handler_cases in E.
      destruct E as (iface & changed & unknown & _ & Hloop).
      apply (characteristic_changed_loop_frame _ _ _ _ _ (characteristic_prop_changed c))
        in Hloop; [|left; reflexivity].
      destruct Hloop as ((n & h & -> & _) & _). reflexivity.
    + exact (IH _ _ _ _ H).
Qed.

Lemma set_flags_stores_identity {P : GattChrProp} (c c' : Characteristic) (w w' : World)
    (flag_list : list string) :
  binc_characteristic_set_flags c flag_list w = Some (c', w') ->
  identity_and_callbacks c' = identity_and_callbacks c.
Proof.
  intros H. unfold binc_characteristic_set_flags in H.
  destruct flag_list as [|token rest]; [discriminate H|].
  unfold_m. destruct (flags c); injection H as <- _; reflexivity.
Qed.

Lemma step_identity {P : GattChrProp} (a : Action) (c c' : Characteristic) (w w' : World) :
  operation_action a = true ->
  step a c w = Some (c', w') ->
  identity_and_callbacks c' = identity_and_callbacks c.
Proof.
  intros Ha H.
  destruct a as [cb|cb|cb|cb|v|v|v|flag_list|v| |data wt| | |index reply|parameters];
    try discriminate Ha; cbn [step] in H.
  - apply set_flags_stores_identity in H. exact H.
  - injection H as <- _. reflexivity.
  - unfold binc_characteristic_read in H. break_step H. reflexivity.
  - unfold binc_characteristic_write in H. break_step H; reflexivity.
  - unfold binc_characteristic_start_notify in H. break_step H. reflexivity.
  - unfold binc_characteristic_stop_notify in H. break_step H. reflexivity.
  - unfold bind in H.
    destruct (g_dbus_reply_arrives index reply c w) as [[u w1]|]; [|discriminate H].
    injection H as <- _. reflexivity.
  - exact (g_dbus_deliver_identity _ _ _ _ _ _ H).
Qed.

(** X11: reading, writing, starting and stopping notifications, assigning
    flags or the bitmask, and the delivery of replies and signals never
    change who the characteristic is or whom it tells: along any run of such
    steps the device, connection, object path, uuid, service path, service
    uuid and the four callbacks stay as they were. *)
Theorem operations_keep_identity_and_callbacks {P : GattChrProp}
    (actions : list Action) (c c' : Characteristic) (w w' : World) :
  forallb operation_action actions = true ->
  run actions c w = Some (c', w') ->
  identity_and_callbacks c' = identity_and_callbacks c.
Proof.
  revert c w. induction actions as [|a rest IH]; intros c w Hops H.
  - injection H as <- _. reflexivity.
  - cbn [forallb] in Hops. apply andb_true_iff in Hops. destruct Hops as [Ha Hrest].
    cbn [run] in H. unfold bind in H.
    destruct (step a c w) as [[c1 w1]|] eqn:E; [|discriminate H].
    rewrite (IH _ _ Hrest H). exact (step_identity _ _ _ _ _ Ha E).
Qed.

(** The statement above on a characteristic that has a uuid and a read
    callback: discovery sets the flags, the application starts notifications
    and the peripheral confirms. *)
Lemma operations_keep_identity_and_callbacks_witness :
  forallb operation_action example_notifying_run = true
  /\ exists c' w',
       run (P := bluetooth_gatt_chr_prop) example_notifying_run
         example_named_characteristic (fresh_world 1) = Some (c', w')
       /\ identity_and_callbacks c' = identity_and_callbacks example_named_characteristic.
Proof.
  split; [reflexivity|]. do 2 eexists. split; [reflexivity|].
  exact (operations_keep_identity_and_callbacks (P := bluetooth_gatt_chr_prop)
           example_notifying_run example_named_characteristic _ (fresh_world 1) _
           eq_refl eq_refl).
Defined.

(** ** Callbacks run from deliveries only *)

(** X12: none of the application's calls runs a user callback or calls
    unsubscribe before it returns: the callbacks invoked and the unsubscribe
    calls recorded are the same after the call as before.  Callbacks are
    invoked only when GDBus delivers a reply or a signal. *)
Theorem calls_invoke_no_callback {P : GattChrProp}
    (a : Action) (c c' : Characteristic) (w w' : World) :
  call_action a = true ->
  step a c w = Some (c', w') ->
  callback_effects (trace w') = callback_effects (trace w)
  /\ unsubscribe_count (trace w') = unsubscribe_count (trace w).
Proof.
  intros Ha H.
  destruct a as [cb|cb|cb|cb|v|v|v|flag_list|v| |data wt| | |index reply|parameters];
    try discriminate Ha; cbn [step] in H.
  1-7, 9: unfold binc_characteristic_set_read_callback,
      binc_characteristic_set_write_callback, binc_characteristic_set_notify_callback,
      binc_characteristic_set_notifying_state_change_callback,
      binc_characteristic_set_uuid, binc_characteristic_set_service_uuid,
      binc_characteristic_set_service_path, binc_characteristic_set_properties in H;
    break_step H; split; reflexivity.
  - unfold binc_characteristic_set_flags in H.
    destruct flag_list as [|token rest]; [discriminate H|].
    unfold_m. destruct (flags c); injection H as _ <-; split; trace_facts.
  - unfold binc_characteristic_read in H. break_step H. split; trace_facts.
  - unfold binc_characteristic_write in H. break_step H; split; trace_facts.
  - unfold binc_characteristic_start_notify in H. break_step H. split; trace_facts.
  - unfold binc_characteristic_stop_notify in H. break_step H. split; trace_facts.
Qed.

(** The statement above for a read on a characteristic with a read
    callback. *)
Lemma calls_invoke_no_callback_witness :
  call_action ARead = true
  /\ exists c w c' w',
       step (P := bluetooth_gatt_chr_prop) ARead c w = Some (c', w')
       /\ on_read_callback c = Some 7%nat
       /\ callback_effects (trace w') = callback_effects (trace w)
       /\ unsubscribe_count (trace w') = unsubscribe_count (trace w).
Proof.
  split; [reflexivity|].
  exists (with_properties example_named_characteristic 2), (fresh_world 1).
  do 2 eexists. split; [reflexivity|]. split; [reflexivity|].
  exact (calls_invoke_no_callback (P := bluetooth_gatt_chr_prop) ARead
           (with_properties example_named_characteristic 2) _ (fresh_world 1) _
           eq_refl eq_refl).
Defined.

(** ** A request and its failure *)

Lemma nth_error_last {A : Type} (l : list A) (x : A) :
  nth_error (l ++ [x]) (List.length l) = Some x.
Proof.
  induction l as [|y l IH]; [reflexivity|exact IH].
Qed.

Ltac request_then_reply Hcap :=
  unfold invokes; cbn [run step];
  unfold binc_characteristic_read, binc_characteristic_write,
    binc_characteristic_start_notify, binc_characteristic_stop_notify;
  try rewrite Hcap; unfold_m; unfold emit;
  cbn [bus trace pending_calls subscriptions next_subscription_id];
  unfold g_dbus_reply_arrives;
  cbn [bus trace pending_calls subscriptions next_subscription_id];
  rewrite nth_error_last;
  cbn [call_callback call_reply_type run_ready_callback g_dbus_async_result];
  unfold binc_internal_char_read_cb, binc_internal_char_write_cb,
    binc_internal_char_start_notify_cb, binc_internal_char_stop_notify_cb;
  run_m.

(** X13: each request is paired with its own completion handler.  When a
    read, a write, a start or a stop of notifications is made on a capable
    characteristic and the remote end answers that call with an error, the
    callback of that kind, and no other, is invoked exactly once with the
    error: the read callback with no bytes, the write callback, or the
    notify-state-change callback; with no such callback registered nothing is
    invoked.  On a characteristic without the capability the request aborts
    and nothing is sent. *)
Theorem failed_request_reaches_its_callback {P : GattChrProp}
    (c : Characteristic) (w : World) (e : GError) (data : list byte)
    (writeType : WriteType) :
  let index := List.length (pending_calls (bus w)) in
  (if binc_characteristic_supports_read c then
     invokes (run [ARead; AReply index (ReplyError e)] c) w
       match on_read_callback c with
       | Some callback => [EOnRead callback None (Some e)]
       | None => []
       end
   else run [ARead; AReply index (ReplyError e)] c w = None)
  /\ (if binc_characteristic_supports_write c writeType then
        invokes (run [AWrite (Some data) writeType; AReply index (ReplyError e)] c) w
          match on_write_callback c with
          | Some callback => [EOnWrite callback (Some e)]
          | None => []
          end
      else run [AWrite (Some data) writeType; AReply index (ReplyError e)] c w = None)
  /\ (if binc_characteristic_supports_notify c then
        invokes (run [AStartNotify; AReply index (ReplyError e)] c) w
          match notify_state_callback c with
          | Some callback => [EOnNotifyingStateChanged callback (notifying c) (Some e)]
          | None => []
          end
      else run [AStartNotify; AReply index (ReplyError e)] c w = None)
  /\ (if binc_characteristic_supports_notify c then
        invokes (run [AStopNotify; AReply index (ReplyError e)] c) w
          match notify_state_callback c with
          | Some callback => [EOnNotifyingStateChanged callback (notifying c) (Some e)]
          | None => []
          end
      else run [AStopNotify; AReply index (ReplyError e)] c w = None).
Proof.
  cbv zeta. split; [|split; [|split]].
  - destruct (binc_characteristic_supports_read c) eqn:Hcap;
      unfold binc_characteristic_supports_read in Hcap.
    + request_then_reply Hcap.
      destruct (on_read_callback c); run_m; do 2 eexists;
        (split; [reflexivity|]); trace_facts.
    + cbn [run step]. unfold binc_characteristic_read. rewrite Hcap. reflexivity.
  - destruct (binc_characteristic_supports_write c writeType) eqn:Hcap.
    + request_then_reply Hcap.
      destruct (on_write_callback c); run_m; do 2 eexists;
        (split; [reflexivity|]); trace_facts.
    + cbn [run step]. unfold binc_characteristic_write. rewrite Hcap. reflexivity.
  - destruct (binc_characteristic_supports_notify c) eqn:Hcap.
    + request_then_reply Hcap.
      destruct (notify_state_callback c); run_m; do 2 eexists;
        (split; [reflexivity|]); trace_facts.
    + cbn [run step]. unfold binc_characteristic_start_notify. rewrite Hcap.
      reflexivity.
  - destruct (binc_characteristic_supports_notify c) eqn:Hcap;
      unfold binc_characteristic_supports_notify in Hcap.
    + request_then_reply Hcap.
      destruct (notify_state_callback c); run_m; do 2 eexists;
        (split; [reflexivity|]); trace_facts.
    + cbn [run step]. unfold binc_characteristic_stop_notify. rewrite Hcap.
      reflexivity.
Qed.

(** ** One cycle of notifications *)

Lemma notifying_true_handled (c : Characteristic) (w : World) :
  binc_internal_signal_characteristic_changed (notifying_changed true) c w =
  Some (with_notifying c true,
        mkWorld (bus w)
          (trace w
           ++ [ELogDebug TAG "notifying %s <%s>" [LogStr (Some "true"); LogStr (uuid c)]]
           ++ match notify_state_callback c with
              | Some callback => [EOnNotifyingStateChanged callback true None]
              | None => []
              end)).
Proof.
  unfold binc_internal_signal_characteristic_changed, notifying_changed. run_m.
  destruct (notify_state_callback c); run_m;
    rewrite <- ?app_assoc; cbn [app]; rewrite ?app_nil_r; reflexivity.
Qed.

Lemma stop_notify_result {P : GattChrProp} (c : Characteristic) (w : World) :
  binc_characteristic_supports_notify c = true ->
  binc_characteristic_stop_notify c w =
  Some (tt,
        mkWorld
          (mkGDBusConnection (next_subscription_id (bus w)) (subscriptions (bus w))
             (pending_calls (bus w) ++
              [mkPendingCall CHARACTERISTIC_METHOD_STOP_NOTIFY None char_stop_notify_cb]))
          (trace w ++ [EDBusCall BLUEZ_DBUS (path c) INTERFACE_CHARACTERISTIC
                         CHARACTERISTIC_METHOD_STOP_NOTIFY None None])).
Proof.
  intros Hcap. unfold binc_characteristic_stop_notify.
  unfold binc_characteristic_supports_notify in Hcap. rewrite Hcap. reflexivity.
Qed.

(** X14: one whole cycle of notifications.  On a characteristic that can
    notify and holds no subscription, on a connection where it has none:
    start, the signal [Notifying = true], stop, the signal
    [Notifying = false], in this order, all return and bring the
    characteristic back to where it was, not notifying and without handle,
    with no subscription left on the connection.  Subscribe and unsubscribe
    have each been called once, the notify-state-change callback has been
    told true and then false, and the cycle can be run again. *)
Theorem notify_cycle_is_balanced {P : GattChrProp} (c : Characteristic) (w : World) :
  binc_characteristic_supports_notify c = true ->
  characteristic_prop_changed c = 0 ->
  subscriptions (bus w) = [] ->
  0 < next_subscription_id (bus w) ->
  exists w',
    run [AStartNotify; ASignal (notifying_changed true); AStopNotify;
         ASignal (notifying_changed false)] c w
    = Some (with_notifying c false, w')
    /\ subscriptions (bus w') = []
    /\ next_subscription_id (bus w') = next_subscription_id (bus w) + 1
    /\ unsubscribe_count (trace w') = (unsubscribe_count (trace w) + 1)%nat
    /\ callback_effects (trace w') =
       callback_effects (trace w) ++
       match notify_state_callback c with
       | Some callback =>
           [EOnNotifyingStateChanged callback true None;
            EOnNotifyingStateChanged callback false None]
       | None => []
       end
    /\ binc_characteristic_supports_notify (with_notifying c false) = true
    /\ characteristic_prop_changed (with_notifying c false) = 0.
Proof.
  intros Hcap Hzero Hsub Hpos.
  destruct w as [[next subs pend] tr]. cbn in Hsub, Hpos. subst subs.
  assert (Hc : with_characteristic_prop_changed (with_notifying c false) 0
               = with_notifying c false)
    by (destruct c; cbn in *; subst; reflexivity).
  cbn [run step]. unfold bind.
  rewrite start_notify_result by exact Hcap.
  cbn [bus subscriptions next_subscription_id pending_calls trace app].
  unfold g_dbus_signal_arrives at 1.
  cbn [bus subscriptions g_dbus_deliver is_subscribed existsb].
  rewrite Z.eqb_refl. cbn [orb]. unfold bind, ret.
  rewrite notifying_true_handled.
  rewrite stop_notify_result by exact Hcap.
  unfold g_dbus_signal_arrives.
  cbn [bus subscriptions g_dbus_deliver is_subscribed existsb].
  rewrite Z.eqb_refl. cbn [orb]. unfold bind, ret.
  rewrite notifying_false_handled.
  cbn [characteristic_prop_changed with_characteristic_prop_changed with_notifying
       bus subscriptions next_subscription_id pending_calls trace
       notify_state_callback uuid].
  replace (next =? 0) with false by (symmetry; apply Z.eqb_neq; lia).
  rewrite remove_only_subscription.
  eexists. split; [rewrite <- Hc; reflexivity|].
  cbn [bus subscriptions next_subscription_id trace].
  split; [reflexivity|]. split; [reflexivity|].
  split; [|split; [|split; [exact Hcap|exact Hzero]]];
    destruct (notify_state_callback c); trace_facts;
    rewrite <- app_assoc; reflexivity.
Qed.

(** The statement above on the example characteristic with the flag "notify",
    on a connection without subscriptions. *)
Lemma notify_cycle_is_balanced_witness :
  binc_characteristic_supports_notify (P := bluetooth_gatt_chr_prop)
    example_notify_characteristic = true
  /\ characteristic_prop_changed example_notify_characteristic = 0
  /\ subscriptions (bus (fresh_world 1)) = []
  /\ 0 < next_subscription_id (bus (fresh_world 1))
  /\ exists w',
       run (P := bluetooth_gatt_chr_prop)
         [AStartNotify; ASignal (notifying_changed true); AStopNotify;
          ASignal (notifying_changed false)]
         example_notify_characteristic (fresh_world 1)
       = Some (with_notifying example_notify_characteristic false, w')
       /\ subscriptions (bus w') = []
       /\ next_subscription_id (bus w') = 1 + 1
       /\ unsubscribe_count (trace w') = (unsubscribe_count [] + 1)%nat
       /\ callback_effects (trace w') = callback_effects [] ++ []
       /\ binc_characteristic_supports_notify (P := bluetooth_gatt_chr_prop)
            (with_notifying example_notify_characteristic false) = true
       /\ characteristic_prop_changed (with_notifying example_notify_characteristic false)
          = 0.
Proof.
  repeat (split; [reflexivity|]).
  exact (notify_cycle_is_balanced (P := bluetooth_gatt_chr_prop)
           example_notify_characteristic (fresh_world 1) eq_refl eq_refl eq_refl eq_refl).
Defined.

(** ** The callback slots *)

Lemma invoked_from_slots_frame (c : Characteristic) (n : bool) (h : Z) (e : Effect) :
  invoked_from_slots (with_characteristic_prop_changed (with_notifying c n) h) e
  <-> invoked_from_slots c e.
Proof.
  unfold invoked_from_slots. destruct (invoked_callback e) as [[[| | |] cb]|];
    reflexivity.
Qed.

Lemma characteristic_changed_property_slots (property_name : string)
    (property_value : GVariant) (c c' : Characteristic) (w w' : World) :
  characteristic_changed_property property_name property_value c w = Some (c', w') ->
  exists delta,
    trace w' = trace w ++ delta /\ Forall (invoked_from_slots c) delta.
Proof.
  intros H. rewrite characteristic_changed_property_cases in H.
  destruct (g_str_equal property_name CHARACTERISTIC_PROPERTY_NOTIFYING).
  - cbv zeta in H. injection H as _ <-. cbn [trace].
    eexists. split; [reflexivity|].
    destruct (notify_state_callback c) as [cb|] eqn:E;
      destruct (g_variant_get_boolean property_value
                || (characteristic_prop_changed c =? 0));
      cbn [app]; repeat constructor; unfold invoked_from_slots; cbn; exact E.
  - destruct (g_str_equal property_name CHARACTERISTIC_PROPERTY_VALUE).
    + destruct property_value; try discriminate H.
      injection H as _ <-. cbn [trace]. eexists. split; [reflexivity|].
      destruct (on_notify_callback c) as [cb|] eqn:E;
        cbn [app]; repeat constructor; unfold invoked_from_slots; cbn; exact E.
    + injection H as _ <-. exists []. split; [symmetry; apply app_nil_r|constructor].
Qed.

Lemma characteristic_changed_loop_slots (entries : list (string * GVariant)) :
  forall (c c' : Characteristic) (w w' : World),
    characteristic_changed_loop entries c w = Some (c', w') ->
    exists delta,
      trace w' = trace w ++ delta /\ Forall (invoked_from_slots c) delta.
Proof.
  induction entries as [|[name value] rest IH]; intros c c' w w' H.
  - injection H as _ <-. exists []. split; [symmetry; apply app_nil_r|constructor].
  - cbn [characteristic_changed_loop] in H. unfold bind in H.
    destruct (characteristic_changed_property name value c w) as [[c1 w1]|] eqn:E;
      [|discriminate H].
    destruct (characteristic_changed_property_slots _ _ _ _ _ _ E) as (d1 & Ht1 & Hf1).
    apply characteristic_changed_property_frame in E.
    destruct E as ((n & h & -> & _) & _).
    apply IH in H. destruct H as (d2 & Ht2 & Hf2).
    exists (d1 ++ d2). split; [rewrite Ht2, Ht1, app_assoc; reflexivity|].
    apply Forall_app. split; [exact Hf1|].
    eapply Forall_impl; [|exact Hf2].
    intros e He. apply (invoked_from_slots_frame c n h). exact He.
Qed.

Lemma g_dbus_deliver_slots (parameters : GVariant) (scheduled : list Z) :
  forall (c c' : Characteristic) (w w' : World),
    g_dbus_deliver scheduled parameters c w = Some (c', w') ->
    exists delta,
      trace w' = trace w ++ delta /\ Forall (invoked_from_slots c) delta.
Proof.
  induction scheduled as [|id rest IH]; intros c c' w w' H.
  - injection H as _ <-. exists []. split; [symmetry; apply app_nil_r|constructor].
  - cbn [g_dbus_deliver] in H. destruct (is_subscribed id w).
    + unfold bind in H.
      destruct (binc_internal_signal_characteristic_changed parameters c w)
        as [[c1 w1]|] eqn:E; [|discriminate H].
      apply signal_handler_cases in E.
      destruct E as (iface & changed & unknown & _ & Hloop).
      destruct (characteristic_changed_loop_slots _ _ _ _ _ Hloop) as (d1 & Ht1 & Hf1).
      apply (characteristic_changed_loop_frame _ _ _ _ _ (characteristic_prop_changed c))
        in Hloop; [|left; reflexivity].
      destruct Hloop as ((n & h & -> & _) & _).
      apply IH in H. destruct H as (d2 & Ht2 & Hf2).
      exists (d1 ++ d2). split; [rewrite Ht2, Ht1, app_assoc; reflexivity|].
      apply Forall_app. split; [exact Hf1|].
      eapply Forall_impl; [|exact Hf2].
      intros e He. apply (invoked_from_slots_frame c n h). exact He.
    + exact (IH _ _ _ _ H).
Qed.

Lemma read_cb_returns (reply : Reply) (c : Characteristic) (w : World) :
  exists delta,
    binc_internal_char_read_cb (g_dbus_async_result (Some "(ay)") reply) c w =
      Some (tt, mkWorld (bus w) (trace w ++ delta))
    /\ Forall (invoked_from_slots c) delta
    /\ (on_read_callback c = None -> callback_effects delta = []).
Proof.
  assert (Herr : forall e,
    exists delta,
      binc_internal_char_read_cb (AsyncError e) c w =
        Some (tt, mkWorld (bus w) (trace w ++ delta))
      /\ Forall (invoked_from_slots c) delta
      /\ (on_read_callback c = None -> callback_effects delta = [])).
  { intros e. unfold binc_internal_char_read_cb. run_m.
    destruct (on_read_callback c) as [cb|] eqn:E; run_m; eexists;
      (split; [rewrite <- ?app_assoc; reflexivity|]); split;
      try (intros; discriminate); try reflexivity;
      repeat constructor.
    unfold invoked_from_slots. cbn. exact E. }
  destruct reply as [value|e]; cbn [g_dbus_async_result]; [|apply Herr].
  destruct (g_str_equal (g_variant_get_type_string value) "(ay)") eqn:Hty;
    [|apply Herr].
  destruct (type_string_ay_tuple value Hty) as [data ->].
  unfold binc_internal_char_read_cb. run_m.
  destruct (on_read_callback c) as [cb|] eqn:E; run_m.
  - eexists. split; [reflexivity|]. split; [|intros; discriminate].
    repeat constructor. unfold invoked_from_slots. cbn. exact E.
  - exists []. destruct w as [b t]. cbn. rewrite app_nil_r.
    split; [reflexivity|]. split; [constructor|reflexivity].
Qed.

Lemma run_ready_callback_slots (callback : ReadyCallback) (res : GAsyncResult)
    (c : Characteristic) (w w' : World) (u : unit) :
  run_ready_callback callback res c w = Some (u, w') ->
  exists delta,
    trace w' = trace w ++ delta /\ Forall (invoked_from_slots c) delta.
Proof.
  destruct callback, res as [value|e]; cbn [run_ready_callback];
    unfold binc_internal_char_read_cb, binc_internal_char_write_cb,
      binc_internal_char_start_notify_cb, binc_internal_char_stop_notify_cb;
    cbn [g_dbus_connection_call_finish].
  1: { unfold bind at 1. unfold bind at 1. unfold g_assert at 1.
       destruct (g_str_equal (g_variant_get_type_string value) "(ay)") eqn:Hty;
         [|discriminate].
       destruct (type_string_ay_tuple value Hty) as [data ->].
       run_m. destruct (on_read_callback c) as [cb|] eqn:E; run_m;
         intros H; injection H as _ <-; cbn [trace].
       - eexists. split; [reflexivity|].
         repeat constructor. unfold invoked_from_slots. cbn. exact E.
       - exists []. split; [symmetry; apply app_nil_r|constructor]. }
  all: run_m;
    destruct (on_read_callback c) as [rcb|] eqn:Er;
    destruct (on_write_callback c) as [wcb|] eqn:Ew;
    destruct (notify_state_callback c) as [scb|] eqn:Es;
    run_m; intros H; injection H as _ <-; cbn [trace];
    first [ exists []; split; [symmetry; apply app_nil_r|constructor]
          | eexists; split; [rewrite <- ?app_assoc; reflexivity|];
            repeat constructor; unfold invoked_from_slots; cbn; assumption ].
Qed.

Lemma delivery_slots {P : GattChrProp} (a : Action) (c c' : Characteristic)
    (w w' : World) :
  call_action a = false ->
  step a c w = Some (c', w') ->
  exists delta,
    trace w' = trace w ++ delta /\ Forall (invoked_from_slots c) delta.
Proof.
  intros Ha H.
  destruct a as [cb|cb|cb|cb|v|v|v|flag_list|v| |data wt| | |index reply|parameters];
    try discriminate Ha; cbn [step] in H.
  - unfold bind in H.
    destruct (g_dbus_reply_arrives index reply c w) as [[u w1]|] eqn:E;
      [|discriminate H].
    injection H as _ <-. unfold g_dbus_reply_arrives in E.
    destruct (nth_error (pending_calls (bus w)) index) as [call|].
    + apply run_ready_callback_slots in E. exact E.
    + injection E as _ <-. exists []. split; [symmetry; apply app_nil_r|constructor].
  - exact (g_dbus_deliver_slots _ _ _ _ _ _ H).
Qed.

(** C8, amended: each of the four registration points is one slot and the
    last registered callback wins.  (1) Registering NULL is rejected by an
    assertion: the call aborts, so a caller cannot remove interest that way.
    (2) Registering a callback and then another leaves the second in the
    slot.  (3) An in-flight completion that finds the slot of its kind empty
    returns and invokes nothing, whatever the remote end answers.  (4)
    Whenever GDBus delivers a reply or a signal, to however many
    subscriptions and with however many changed properties, every callback
    that is invoked is the one the slot of its kind holds, so a replaced
    callback is never invoked and a kind whose slot is empty is not invoked
    at all. *)
Theorem callback_slots_last_registered_wins {P : GattChrProp}
    (c : Characteristic) (w : World) (cb1 cb2 : nat) :
  (binc_characteristic_set_read_callback c None w = None
   /\ binc_characteristic_set_write_callback c None w = None
   /\ binc_characteristic_set_notifying_state_change_callback c None w = None
   /\ binc_characteristic_set_notify_callback c None w = None)
  /\ ((c1 <- binc_characteristic_set_read_callback c (Some cb1) ;;
       binc_characteristic_set_read_callback c1 (Some cb2)) w
      = Some (with_on_read_callback c (Some cb2), w)
      /\ (c1 <- binc_characteristic_set_write_callback c (Some cb1) ;;
          binc_characteristic_set_write_callback c1 (Some cb2)) w
         = Some (with_on_write_callback c (Some cb2), w)
      /\ (c1 <- binc_characteristic_set_notifying_state_change_callback c (Some cb1) ;;
          binc_characteristic_set_notifying_state_change_callback c1 (Some cb2)) w
         = Some (with_notify_state_callback c (Some cb2), w)
      /\ (c1 <- binc_characteristic_set_notify_callback c (Some cb1) ;;
          binc_characteristic_set_notify_callback c1 (Some cb2)) w
         = Some (with_on_notify_callback c (Some cb2), w))
  /\ (forall reply : Reply,
        invokes (binc_internal_char_read_cb (g_dbus_async_result (Some "(ay)") reply)
                   (with_on_read_callback c None)) w []
        /\ invokes (binc_internal_char_write_cb (g_dbus_async_result None reply)
                      (with_on_write_callback c None)) w []
        /\ invokes (binc_internal_char_start_notify_cb (g_dbus_async_result None reply)
                      (with_notify_state_callback c None)) w []
        /\ invokes (binc_internal_char_stop_notify_cb (g_dbus_async_result None reply)
                      (with_notify_state_callback c None)) w [])
  /\ (forall (a : Action) (c' : Characteristic) (w' : World),
        call_action a = false ->
        step a c w = Some (c', w') ->
        exists delta,
          trace w' = trace w ++ delta
          /\ Forall (invoked_from_slots c) delta
          /\ forall kind,
               slot c kind = None ->
               Forall (fun e => forall cb, invoked_callback e <> Some (kind, cb)) delta).
Proof.
  split; [repeat split; reflexivity|].
  split; [repeat split; reflexivity|].
  split.
  - intros reply. split; [|split; [|split]].
    + destruct (read_cb_returns reply (with_on_read_callback c None) w)
        as (delta & Hrun & _ & Hnone).
      unfold invokes. do 2 eexists. split; [exact Hrun|].
      cbn [trace]. unfold callback_effects in *. rewrite filter_app.
      rewrite (Hnone eq_refl). reflexivity.
    + destruct reply as [value|e]; cbn [g_dbus_async_result];
        unfold binc_internal_char_write_cb; solve_invokes.
    + destruct reply as [value|e]; cbn [g_dbus_async_result];
        unfold binc_internal_char_start_notify_cb; solve_invokes.
    + destruct reply as [value|e]; cbn [g_dbus_async_result];
        unfold binc_internal_char_stop_notify_cb; solve_invokes.
  - intros a c' w' Ha Hstep.
    destruct (delivery_slots _ _ _ _ _ Ha Hstep) as (delta & Ht & Hf).
    exists delta. split; [exact Ht|]. split; [exact Hf|].
    intros kind Hempty. eapply Forall_impl; [|exact Hf].
    intros e He cb Hcb. unfold invoked_from_slots in He. rewrite Hcb in He.
    congruence.
Qed.

(** The statement above where it matters most: the characteristic holds two
    subscriptions and a value arrives.  The notify callback registered last
    is invoked for each subscription, and nothing else is invoked. *)
Lemma callback_slots_last_registered_wins_witness :
  exists c w c' w' delta,
    call_action (ASignal (value_changed [x01])) = false
    /\ subscriptions (bus w) = [1; 2]
    /\ on_notify_callback c = Some 9%nat
    /\ step (P := bluetooth_gatt_chr_prop) (ASignal (value_changed [x01])) c w
       = Some (c', w')
    /\ trace w' = trace w ++ delta
    /\ callback_effects delta = [EOnNotify 9%nat [x01]; EOnNotify 9%nat [x01]]
    /\ Forall (invoked_from_slots c) delta.
Proof.
  exists (with_on_notify_callback example_characteristic (Some 9%nat)).
  exists (mkWorld (mkGDBusConnection 3 [1; 2] []) []).
  destruct (proj2 (proj2 (proj2
              (callback_slots_last_registered_wins (P := bluetooth_gatt_chr_prop)
                 (with_on_notify_callback example_characteristic (Some 9%nat))
                 (mkWorld (mkGDBusConnection 3 [1; 2] []) []) 8%nat 9%nat)))
              (ASignal (value_changed [x01])) _ _ eq_refl eq_refl)
    as (delta & Ht & Hf & _).
  do 2 eexists. exists delta.
  split; [reflexivity|]. split; [reflexivity|]. split; [reflexivity|].
  split; [reflexivity|]. split; [exact Ht|]. split; [|exact Hf].
  cbn [trace app] in Ht. subst delta. reflexivity.
Defined.
